(** * Field validators of [prefect._internal.schemas.validators]

    A shallow embedding of the validators in
    [src/prefect/_internal/schemas/validators.py] and the properties of
    them that the specification states.

    Conventions of the embedding.
    - A Python [str] is a [string] with one [ascii] per code point; the
      embedding covers code points below 256.
    - A Python [int] is a [Z]; [len] returns a [Z].
    - A mapping with string keys is a [gmap string PyVal]: lookups, updates
      and equality of Python dicts do not depend on insertion order.
    - A function that can raise returns a [Result]; [warnings.warn] appends
      to a list of diagnostics returned next to the value.
    - The engines the module calls but does not implement ([jsonschema],
      [croniter], [dateutil.rrule], [pendulum.tz.timezones]) are variables
      of the sections that use them. *)

From Stdlib Require Import ZArith String Ascii List Bool Lia.
From Stdlib Require Import Floats.SpecFloat.
From stdpp Require Import gmap strings list fin_maps pretty.

Set Warnings "-register-all".
Set Default Proof Using "Type".

Local Open Scope Z_scope.

(** ** Part I. Definitions *)

(** *** Python values *)

Record Timezone : Type := { name : string }.

(** A [pendulum.DateTime], reduced to the instant it denotes and its [tz]
    attribute. *)
Record DateTime : Type := { timestamp : Z; tz : option Timezone }.

Inductive PyVal : Type :=
| PNone
| PBool (b : bool)
| PInt (z : Z)
| PFloat (f : spec_float)
| PStr (s : string)
| PDateTime (d : DateTime)
| PList (xs : list PyVal)
| PDict (m : gmap string PyVal).

(** The exceptions the module raises or meets, with their text; and
    [OtherException]: an exception of another class, which the module
    neither raises nor catches, with the name of its class. *)
Inductive PyExc : Type :=
| ValueError (msg : string)
| KeyError (key : string)
| AttributeError (msg : string)
| OtherException (cls msg : string).

Inductive Result (A : Type) : Type :=
| Return (a : A)
| Raise (e : PyExc).

Arguments Return {A} a.
Arguments Raise {A} e.

Definition bind {A B : Type} (r : Result A) (k : A -> Result B) : Result B :=
  match r with
  | Return a => k a
  | Raise e => Raise e
  end.

Notation "'let*' x := r 'in' k" := (bind r (fun x => k))
  (at level 10, x name, r at level 100, k at level 200).

(** [bool(v)]. *)
Definition truthy (v : PyVal) : bool :=
  match v with
  | PNone => false
  | PBool b => b
  | PInt z => negb (z =? 0)
  | PFloat (S754_zero _) => false
  | PFloat _ => true
  | PStr s => negb (String.eqb s EmptyString)
  | PDateTime _ => true
  | PList xs => negb (bool_decide (xs = []))
  | PDict m => negb (bool_decide (dom m = ∅))
  end.

(** [v != 0]: only a number can be equal to [0], and [False == 0]. *)
Definition py_ne_zero (v : PyVal) : bool :=
  match v with
  | PBool b => b
  | PInt z => negb (z =? 0)
  | PFloat (S754_zero _) => false
  | _ => true
  end.

(** [values.get(key, default)] and [values[key]]. *)
Definition dict_get (values : gmap string PyVal) (key : string) (default : PyVal) : PyVal :=
  match values !! key with
  | Some x => x
  | None => default
  end.

Definition getitem (values : gmap string PyVal) (key : string) : Result PyVal :=
  match values !! key with
  | Some x => Return x
  | None => Raise (KeyError key)
  end.

(** [values.pop(key, default)]: the value removed and the mapping left. *)
Definition dict_pop (values : gmap string PyVal) (key : string) (default : PyVal)
  : PyVal * gmap string PyVal :=
  (dict_get values key default, delete key values).

(** *** Python strings *)

Definition dquote : string := String (ascii_of_nat 34) EmptyString.
Definition squote : string := "'".
Definition newline : ascii := ascii_of_nat 10.
Definition backslash : ascii := ascii_of_nat 92.

Definition len (s : string) : Z := Z.of_nat (String.length s).

(** [s[:n]]. *)
Definition slice_to (n : nat) (s : string) : string := substring 0 n s.

Definition code (c : ascii) : N := N_of_ascii c.

Definition in_range (lo hi : N) (c : ascii) : bool :=
  ((lo <=? code c) && (code c <=? hi))%N.

(** [str.isspace] on one code point. *)
Definition isspace (c : ascii) : bool :=
  in_range 9 13 c || in_range 28 32 c || (code c =? 133)%N || (code c =? 160)%N.

(** [str.casefold]: on ASCII it lowers [A-Z].  For the other code points
    below 256 Python folds to other letters, none of which is [r] or [h],
    which is all that [validate_cron_string] asks of the result. *)
Definition casefold_char (c : ascii) : ascii :=
  if in_range 65 90 c then ascii_of_N (code c + 32) else c.

Fixpoint casefold (s : string) : string :=
  match s with
  | EmptyString => EmptyString
  | String c rest => String (casefold_char c) (casefold rest)
  end.

(** [str.split()] with no separator: the maximal runs of characters that
    are not white space.  [cur] is the run being read. *)
Definition flush (cur : string) (tokens : list string) : list string :=
  match cur with
  | EmptyString => tokens
  | _ => cur :: tokens
  end.

Fixpoint split_from (cur : string) (s : string) : list string :=
  match s with
  | EmptyString => flush cur []
  | String c rest =>
      if isspace c then flush cur (split_from EmptyString rest)
      else split_from (cur +:+ String c EmptyString) rest
  end.

Definition split (s : string) : list string := split_from EmptyString s.

(** [s.replace(old, new)] for a non-empty [old]: the occurrences of [old]
    are found from the left and do not overlap.  [skip] counts the
    characters of a found occurrence still to drop. *)
Fixpoint replace_from (old new : string) (skip : nat) (s : string) : string :=
  match s with
  | EmptyString => EmptyString
  | String c rest =>
      match skip with
      | S k => replace_from old new k rest
      | O =>
          if String.prefix old s
          then new +:+ replace_from old new (String.length old - 1) rest
          else String c (replace_from old new 0 rest)
      end
  end.

Definition replace (old new : string) (s : string) : string :=
  replace_from old new 0 s.

Fixpoint contains_char (c : ascii) (s : string) : bool :=
  match s with
  | EmptyString => false
  | String c' rest => Ascii.eqb c c' || contains_char c rest
  end.

Definition hex_digit (n : N) : ascii :=
  match String.get (N.to_nat n) "0123456789abcdef" with
  | Some c => c
  | None => "0"%char
  end.

(** [repr] of a [str], as CPython writes it: single quotes unless the
    string has a single quote and no double quote; the quote in use and
    the backslash escaped; tab, line feed and carriage return by letter;
    the other code points that are not printable as [\xNN]. *)
Definition repr_quote (s : string) : ascii :=
  if contains_char "'"%char s && negb (contains_char (ascii_of_nat 34) s)
  then ascii_of_nat 34 else "'"%char.

Definition printable (c : ascii) : bool :=
  negb (in_range 0 31 c || in_range 127 160 c || (code c =? 173)%N).

Definition repr_char (quote c : ascii) : string :=
  if Ascii.eqb c quote || Ascii.eqb c backslash then String backslash (String c EmptyString)
  else if (code c =? 9)%N then String backslash "t"
  else if (code c =? 10)%N then String backslash "n"
  else if (code c =? 13)%N then String backslash "r"
  else if printable c then String c EmptyString
  else String backslash
         (String "x" (String (hex_digit (code c / 16)) (String (hex_digit (code c mod 16)) EmptyString))).

Fixpoint repr_chars (quote : ascii) (s : string) : string :=
  match s with
  | EmptyString => EmptyString
  | String c rest => repr_char quote c +:+ repr_chars quote rest
  end.

Definition py_repr_str (s : string) : string :=
  String (repr_quote s) (repr_chars (repr_quote s) s +:+ String (repr_quote s) EmptyString).

(** *** Regular expressions

    The part of Python's [re] that the two name patterns use.  [$]
    without [re.MULTILINE] matches at the end of the string and just
    before a line feed that ends the string. *)

Inductive Regex : Type :=
| Bol                                   (* ^ *)
| Eol                                   (* $ *)
| ClassStar (cls : ascii -> bool)       (* [...]* *)
| Seq (r1 r2 : Regex).

Definition at_eol (s : string) : bool :=
  match s with
  | EmptyString => true
  | String c EmptyString => Ascii.eqb c newline
  | _ => false
  end.

(** [star_match cls pos s k]: [[cls]*] at offset [pos] with [s] left to
    read; it takes one more character of the class or stops, and [k] runs
    the rest of the pattern. *)
Fixpoint star_match (cls : ascii -> bool) (pos : nat) (s : string)
    (k : nat -> string -> bool) : bool :=
  match s with
  | EmptyString => k pos s
  | String c rest => (cls c && star_match cls (S pos) rest k) || k pos s
  end.

Fixpoint regex_match (r : Regex) (pos : nat) (s : string)
    (k : nat -> string -> bool) : bool :=
  match r with
  | Bol => Nat.eqb pos 0 && k pos s
  | Eol => at_eol s && k pos s
  | ClassStar cls => star_match cls pos s k
  | Seq r1 r2 => regex_match r1 pos s (fun pos' s' => regex_match r2 pos' s' k)
  end.

(** [bool(re.match(pattern, value))]: a match that starts at offset 0 and
    may end anywhere. *)
Definition re_match (pattern : Regex) (value : string) : bool :=
  regex_match pattern 0 value (fun _ _ => true).

Definition lower_or_digit (c : ascii) : bool :=
  in_range 97 122 c || in_range 48 57 c.

Definition dash_class (c : ascii) : bool := lower_or_digit c || Ascii.eqb c "-".
Definition underscore_class (c : ascii) : bool := lower_or_digit c || Ascii.eqb c "_".

(** *** NameFormatGuard *)

(** ["^[a-z0-9-]*$"] *)
Definition LOWERCASE_LETTERS_NUMBERS_AND_DASHES_ONLY_REGEX : Regex :=
  Seq Bol (Seq (ClassStar dash_class) Eol).

(** ["^[a-z0-9_]*$"] *)
Definition LOWERCASE_LETTERS_NUMBERS_AND_UNDERSCORES_REGEX : Regex :=
  Seq Bol (Seq (ClassStar underscore_class) Eol).

Definition raise_on_name_alphanumeric_dashes_only
    (value : option string) (field_name : string) : Result (option string) :=
  match value with
  | Some s =>
      if negb (re_match LOWERCASE_LETTERS_NUMBERS_AND_DASHES_ONLY_REGEX s)
      then Raise (ValueError
                    (field_name +:+ " must only contain lowercase letters, numbers, and dashes."))
      else Return value
  | None => Return value
  end.

Definition raise_on_name_alphanumeric_underscores_only
    (value : option string) (field_name : string) : Result (option string) :=
  match value with
  | Some s =>
      if negb (re_match LOWERCASE_LETTERS_NUMBERS_AND_UNDERSCORES_REGEX s)
      then Raise (ValueError
                    (field_name +:+ " must only contain lowercase letters, numbers, and underscores."))
      else Return value
  | None => Return value
  end.

(** *** FieldMigrationReconciler *)

Definition WORKER_POOL_QUEUE_ID_WARNING : string :=
  "`worker_pool_queue_id` is no longer supported for creating or updating "
  +:+ "deployments. Please use `work_pool_name` and "
  +:+ "`work_queue_name` instead.".

Definition WORKER_POOL_NAME_WARNING : string :=
  "`worker_pool_name`, `worker_pool_queue_name`, and "
  +:+ "`work_pool_name` are"
  +:+ "no longer supported for creating or updating "
  +:+ "deployments. Please use `work_pool_name` and "
  +:+ "`work_queue_name` instead.".

(** The copy without the four old keys, and the [UserWarning]s issued. *)
Definition remove_old_deployment_fields (values : gmap string PyVal)
  : list string * gmap string PyVal :=
  let values_copy := values in
  let '(worker_pool_queue_id, values_copy) := dict_pop values_copy "worker_pool_queue_id" PNone in
  let '(worker_pool_name, values_copy) := dict_pop values_copy "worker_pool_name" PNone in
  let '(worker_pool_queue_name, values_copy) := dict_pop values_copy "worker_pool_queue_name" PNone in
  let '(work_pool_queue_name, values_copy) := dict_pop values_copy "work_pool_queue_name" PNone in
  let warned1 := if truthy worker_pool_queue_id then [WORKER_POOL_QUEUE_ID_WARNING] else [] in
  let warned2 :=
    if truthy worker_pool_name || truthy worker_pool_queue_name || truthy work_pool_queue_name
    then [WORKER_POOL_NAME_WARNING] else [] in
  (warned1 ++ warned2, values_copy).

Definition reconcile_paused_deployment (values : gmap string PyVal) : gmap string PyVal :=
  let paused := dict_get values "paused" PNone in
  match paused with
  | PNone => <["paused" := PBool false]> values
  | _ => values
  end.

(** One of the two steps of [set_run_policy_deprecated_fields]: if
    [not values.get(modern, None) and values.get(legacy, 0) != 0] then
    [values[modern] = values[legacy]]. *)
Definition copy_deprecated_field (modern legacy : string) (values : gmap string PyVal)
  : Result (gmap string PyVal) :=
  if negb (truthy (dict_get values modern PNone)) && py_ne_zero (dict_get values legacy (PInt 0))
  then let* x := getitem values legacy in Return (<[modern := x]> values)
  else Return values.

Definition set_run_policy_deprecated_fields (values : gmap string PyVal)
  : Result (gmap string PyVal) :=
  let* values := copy_deprecated_field "retries" "max_retries" values in
  let* values := copy_deprecated_field "retry_delay" "retry_delay_seconds" values in
  Return values.

(** *** The schema engine's verdict *)

(** What [jsonschema.validate(instance, schema)] does: it returns, raises a
    [ValidationError] (of which the module reads [json_path] and
    [message]), raises a [SchemaError], or raises an exception of another
    class, as it does for a [$ref] that cannot be resolved. *)
Inductive JsonschemaOutcome : Type :=
| Valid
| ValidationError (json_path message : string)
| SchemaError (message : string)
| EngineRaises (cls msg : string).

(** What [dateutil.rrule.rrulestr(v, cache=True)] does: it returns a rule,
    raises a [ValueError] whose text is [exc], or raises an exception of
    another class, as it does ([IndexError]) for a string that has a
    DTSTART line and no rule. *)
Inductive RruleOutcome : Type :=
| Parsed
| ParseError (exc : string)
| ParserRaises (cls msg : string).

Definition is_none (v : PyVal) : bool :=
  match v with
  | PNone => true
  | _ => false
  end.

(** Modelled from the spec: [prefect.utilities.collections.remove_nested_keys]
    is imported by [validate_values_conform_to_schema] and is not among the
    sources.  The specification says that the keys are stripped
    recursively, at every nesting level; a value that is not a mapping or
    a sequence is returned as it is. *)
Fixpoint remove_nested_keys (keys_to_remove : list string) (obj : PyVal) : PyVal :=
  match obj with
  | PDict m =>
      PDict (map_imap (fun key value =>
                         if bool_decide (key ∈ keys_to_remove) then None
                         else Some (remove_nested_keys keys_to_remove value)) m)
  | PList xs => PList (map (remove_nested_keys keys_to_remove) xs)
  | _ => obj
  end.

Definition MAX_RRULE_LENGTH : Z := 6500.

Definition INT_MAX_STR_DIGITS : Z := 4300.

(** [type(v).__name__]. *)
Definition type_name (v : PyVal) : string :=
  match v with
  | PNone => "NoneType"
  | PBool _ => "bool"
  | PInt _ => "int"
  | PFloat _ => "float"
  | PStr _ => "str"
  | PDateTime _ => "DateTime"
  | PList _ => "list"
  | PDict _ => "dict"
  end.

(** [v.tz]: a timestamp has the attribute, a value of another type raises
    the [AttributeError] of Python. *)
Definition getattr_tz (v : PyVal) : Result (option Timezone) :=
  match v with
  | PDateTime d => Return (tz d)
  | _ => Raise (AttributeError ("'" +:+ type_name v +:+ "' object has no attribute 'tz'"))
  end.

Section Validators.

(** [str] and [repr] of the values whose text the embedding does not
    compute (floats, timestamps, lists and mappings).  [str] can raise,
    as [__str__] may and as it does for a list that holds an integer too
    long to write. *)
Variable str_other : PyVal -> Result string.
Variable repr_other : PyVal -> string.

(** [jsonschema.validate], [pendulum.tz.timezones()],
    [croniter.is_valid] and [dateutil.rrule.rrulestr]. *)
Variable jsonschema_validate : PyVal -> PyVal -> JsonschemaOutcome.
Variable timezones : list string.
Variable croniter_is_valid : string -> bool.
Variable rrulestr : string -> RruleOutcome.

(** [str(v)].  CPython does not write an integer of more than
    [sys.get_int_max_str_digits()] decimal digits, which is
    [INT_MAX_STR_DIGITS] unless the interpreter is set otherwise: [str]
    raises a [ValueError] for it. *)
Definition int_str (z : Z) : Result string :=
  if 10 ^ INT_MAX_STR_DIGITS <=? Z.abs z
  then Raise (ValueError
                ("Exceeds the limit (4300 digits) for integer string conversion; "
                 +:+ "use sys.set_int_max_str_digits() to increase the limit"))
  else Return (pretty z).

Definition py_str (v : PyVal) : Result string :=
  match v with
  | PNone => Return "None"
  | PBool true => Return "True"
  | PBool false => Return "False"
  | PInt z => int_str z
  | PStr s => Return s
  | _ => str_other v
  end.

Definition py_repr (v : PyVal) : string :=
  match v with
  | PNone => "None"
  | PBool true => "True"
  | PBool false => "False"
  | PInt z => pretty z
  | PStr s => py_repr_str s
  | _ => repr_other v
  end.

(** *** SchemaConformanceChecker *)

Definition validate_values_conform_to_schema
    (values schema : PyVal) (ignore_required : bool) : Result unit :=
  let schema := if ignore_required then remove_nested_keys ["required"] schema else schema in
  let outcome :=
    if negb (is_none schema) && negb (is_none values)
    then jsonschema_validate values schema else Valid in
  match outcome with
  | Valid => Return tt
  | ValidationError json_path message =>
      let error_message :=
        if String.eqb json_path "$" then "Validation failed."
        else "Validation failed for field "
             +:+ py_repr_str (replace "$." EmptyString json_path) +:+ "." in
      Raise (ValueError (error_message +:+ " Failure reason: " +:+ message))
  | SchemaError message =>
      Raise (ValueError
               ("The provided schema is not a valid json schema. Schema error: " +:+ message))
  | EngineRaises cls msg => Raise (OtherException cls msg)
  end.

(** *** TimezoneResolver *)

Definition default_timezone (v : option string) (values : option (gmap string PyVal))
  : Result (option string) :=
  let values := match values with Some m => m | None => ∅ end in
  match v with
  | Some s =>
      if negb (String.eqb s EmptyString) && negb (bool_decide (s ∈ timezones))
      then Raise (ValueError
                    ("Invalid timezone: " +:+ dquote +:+ s +:+ dquote
                     +:+ " (specify in IANA tzdata format, for example, America/New_York)"))
      else Return v
  | None =>
      match values !! "anchor_date" with
      | Some anchor_date =>
          let* anchor_tz := getattr_tz anchor_date in
          let zone := match anchor_tz with
                      | None => "UTC"
                      | Some z => name z
                      end in
          Return (Some (if bool_decide (zone ∈ timezones) then zone else "UTC"))
      | None => Return v
      end
  end.

(** *** ScheduleGrammarValidator *)

(** [any(c for c in v.split() if c.casefold() in ["R", "H", "r", "h"])]:
    [any] asks whether one of the tokens the generator yields is truthy. *)
Definition has_random_or_hashed (v : string) : bool :=
  existsb (fun c => negb (String.eqb c EmptyString))
    (filter (fun c => casefold c ∈ ["R"; "H"; "r"; "h"]) (split v)).

Definition validate_cron_string (v : string) : Result string :=
  if negb (croniter_is_valid v)
  then Raise (ValueError ("Invalid cron string: " +:+ dquote +:+ v +:+ dquote))
  else if has_random_or_hashed v
  then Raise (ValueError
                ("Random and Hashed expressions are unsupported, received: "
                 +:+ dquote +:+ v +:+ dquote))
  else Return v.

(** The two [ValueError]s of [validate_rrule_string]: the string does not
    parse (the whole string and the parser's text are in the message), and
    the string is too long (its first 40 characters are). *)
Definition rrule_syntax_error (v exc : string) : PyExc :=
  ValueError ("Invalid RRule string " +:+ dquote +:+ v +:+ dquote +:+ ": " +:+ exc).

Definition rrule_limit_error (v : string) : PyExc :=
  ValueError
    ("Invalid RRule string " +:+ dquote +:+ slice_to 40 v +:+ "..." +:+ dquote
     +:+ String newline EmptyString
     +:+ "Max length is " +:+ pretty MAX_RRULE_LENGTH +:+ ", got " +:+ pretty (len v)).

Definition validate_rrule_string (v : string) : Result string :=
  match rrulestr v with
  | ParseError exc => Raise (rrule_syntax_error v exc)
  | ParserRaises cls msg => Raise (OtherException cls msg)
  | Parsed =>
      if MAX_RRULE_LENGTH <? len v
      then Raise (rrule_limit_error v)
      else Return v
  end.

(** *** MetadataSanitizer *)

(** The body of the loop, for one [key] of the mapping [v]. *)
Definition truncate_metadata_value (max_metadata_length : Z) (v : gmap string PyVal)
    (key : string) : Result (gmap string PyVal) :=
  let* x := getitem v key in
  let* s := py_str x in
  if max_metadata_length <? len s
  then let* x := getitem v key in
       let* s := py_str x in
       Return (<[key := PStr (slice_to (Z.to_nat max_metadata_length) s +:+ "...")]> v)
  else Return v.

(** [for key in v.keys(): ...] over the keys in the order [keys]. *)
Definition metadata_loop (max_metadata_length : Z) (keys : list string)
    (v : gmap string PyVal) : Result (gmap string PyVal) :=
  foldl (fun state key => let* v := state in truncate_metadata_value max_metadata_length v key)
        (Return v) keys.

Definition validate_max_metadata_length (v : option (gmap string PyVal))
  : Result (option (gmap string PyVal)) :=
  let max_metadata_length := 500 in
  match v with
  | None => Return v
  | Some m =>
      let* m := metadata_loop max_metadata_length (map_to_list m).*1 m in
      Return (Some m)
  end.

End Validators.

(** *** A schema engine for three keywords

    The engine is outside the module; to run the conformance checker on
    concrete schemas this is [jsonschema]'s validation for the keywords
    [type] (one type name), [properties] and [required], on schemas that
    are well formed: the keywords of the schema are visited, each checks
    the instance, and [properties] descends into the members the instance
    has.  A failure records how deep in the instance it is, its
    [json_path] and its [message].  The path is written [$.name], as
    [jsonschema] writes it for names that are identifiers, and the
    examples below have one failure each, so that which failure
    [best_match] reports is not in question. *)

Record SchemaFailure : Type :=
  { failure_depth : nat; failure_path : string; failure_message : string }.

Definition float_is_integer (f : spec_float) : bool :=
  match f with
  | S754_zero _ => true
  | S754_finite _ m e => (0 <=? e) || (Z.pos m mod 2 ^ (- e) =? 0)
  | _ => false
  end.

Definition json_type_matches (t : string) (instance : PyVal) : bool :=
  match instance with
  | PNone => String.eqb t "null"
  | PBool _ => String.eqb t "boolean"
  | PInt _ => String.eqb t "integer" || String.eqb t "number"
  | PFloat f => String.eqb t "number" || (String.eqb t "integer" && float_is_integer f)
  | PStr _ => String.eqb t "string"
  | PDateTime _ => false
  | PList _ => String.eqb t "array"
  | PDict _ => String.eqb t "object"
  end.

Definition map_values {A : Type} (m : gmap string A) : list A := (map_to_list m).*2.

Section SchemaEngine.

Variable repr_other : PyVal -> string.

Definition check_type (v instance : PyVal) (depth : nat) (path : string) : list SchemaFailure :=
  match v with
  | PStr t =>
      if json_type_matches t instance then []
      else [ {| failure_depth := depth; failure_path := path;
                failure_message :=
                  py_repr repr_other instance +:+ " is not of type " +:+ py_repr_str t |} ]
  | _ => []
  end.

Definition check_required (v instance : PyVal) (depth : nat) (path : string) : list SchemaFailure :=
  match v, instance with
  | PList required, PDict members =>
      flat_map (fun property =>
                  match property with
                  | PStr p =>
                      if bool_decide (is_Some (members !! p)) then []
                      else [ {| failure_depth := depth; failure_path := path;
                                failure_message := py_repr_str p +:+ " is a required property" |} ]
                  | _ => []
                  end) required
  | _, _ => []
  end.

Fixpoint iter_errors (schema instance : PyVal) (depth : nat) (path : string)
  : list SchemaFailure :=
  match schema with
  | PDict keywords =>
      concat (map_values (map_imap (fun keyword v =>
        Some (if String.eqb keyword "type" then check_type v instance depth path
              else if String.eqb keyword "required" then check_required v instance depth path
              else if String.eqb keyword "properties" then
                match v, instance with
                | PDict properties, PDict members =>
                    concat (map_values (map_imap (fun property subschema =>
                      match members !! property with
                      | Some member =>
                          Some (iter_errors subschema member (S depth) (path +:+ "." +:+ property))
                      | None => None
                      end) properties))
                | _, _ => []
                end
              else [])) keywords))
  | _ => []
  end.

(** [best_match] prefers a failure higher up in the instance; among those
    of one depth this takes the first. *)
Fixpoint shallowest (best : SchemaFailure) (rest : list SchemaFailure) : SchemaFailure :=
  match rest with
  | [] => best
  | e :: rest' =>
      shallowest (if Nat.ltb (failure_depth e) (failure_depth best) then e else best) rest'
  end.

Definition schema_engine (instance schema : PyVal) : JsonschemaOutcome :=
  match iter_errors schema instance 0 "$" with
  | [] => Valid
  | e :: rest =>
      let best := shallowest e rest in
      ValidationError (failure_path best) (failure_message best)
  end.

End SchemaEngine.

(** *** Vocabulary of the statements *)

(** [s * n]. *)
Fixpoint str_mul (s : string) (n : nat) : string :=
  match n with
  | O => EmptyString
  | S n' => s +:+ str_mul s n'
  end.

Fixpoint string_forall (p : ascii -> bool) (s : string) : bool :=
  match s with
  | EmptyString => true
  | String c rest => p c && string_forall p rest
  end.

(** [old in s]. *)
Fixpoint occurs (old s : string) : bool :=
  match s with
  | EmptyString => String.prefix old s
  | String _ rest => String.prefix old s || occurs old rest
  end.

(** A character that [repr] writes as it is inside single quotes. *)
Definition plain_char (c : ascii) : bool :=
  printable c && negb (Ascii.eqb c "'") && negb (Ascii.eqb c backslash).

(** The message the specification gives for a conformance failure at
    [json_path]: the path without its leading ["$."], in single quotes. *)
Definition strip_prefix (p s : string) : string :=
  if String.prefix p s then substring (String.length p) (String.length s - String.length p) s
  else s.

Definition specified_conformance_message (json_path detail : string) : string :=
  if String.eqb json_path "$" then "Validation failed. Failure reason: " +:+ detail
  else "Validation failed for field '" +:+ strip_prefix "$." json_path
       +:+ "'. Failure reason: " +:+ detail.

(** Whether [str(x)] returns, and the text it returns then. *)
Definition str_defined (str_other : PyVal -> Result string) (x : PyVal) : bool :=
  match py_str str_other x with
  | Return _ => true
  | Raise _ => false
  end.

Definition text_of (str_other : PyVal -> Result string) (x : PyVal) : string :=
  match py_str str_other x with
  | Return s => s
  | Raise _ => EmptyString
  end.

(** The value [validate_max_metadata_length] leaves in place of an [x]
    that has a text. *)
Definition sanitized (str_other : PyVal -> Result string) (x : PyVal) : PyVal :=
  if 500 <? len (text_of str_other x)
  then PStr (slice_to 500 (text_of str_other x) +:+ "...")
  else x.

(** The condition under which [set_run_policy_deprecated_fields] copies
    [legacy] into [modern]: [modern] is absent or falsy, and [legacy] is
    there with a value that is not [0]. *)
Definition absent_or_falsy (values : gmap string PyVal) (key : string) : bool :=
  match values !! key with
  | None => true
  | Some x => negb (truthy x)
  end.

Definition present_nonzero (values : gmap string PyVal) (key : string) : bool :=
  match values !! key with
  | None => false
  | Some x => py_ne_zero x
  end.

(** A recurrence parser that, as [dateutil] does, refuses a blank string
    with the text [empty string]; it takes every other string. *)
Definition blank_refusing_rrulestr (v : string) : RruleOutcome :=
  if string_forall isspace v then ParseError "empty string" else Parsed.

(** What is left of the pattern after [[cls]*]: [$], then the end of the
    match. *)
Definition then_eol (k : nat -> string -> bool) : nat -> string -> bool :=
  fun pos s => at_eol s && k pos s.

(** A parameter schema with one parameter [property], a string, that is
    required or not; and parameter values that give [property] the
    integer 5. *)
Definition string_parameter_schema (property : string) (required : bool) : PyVal :=
  let properties := PDict (<[property := PDict (<["type" := PStr "string"]> ∅)]> ∅) in
  let schema := <["type" := PStr "object"]> (<["properties" := properties]> ∅) in
  PDict (if required then <["required" := PList [PStr property]]> schema else schema).

Definition integer_parameter_values (property : string) : PyVal :=
  PDict (<[property := PInt 5]> ∅).

(** *** The other validators of the module *)

(** [validate_block_document_name], [validate_artifact_key],
    [validate_variable_name] and [validate_block_type_slug]: the name
    guards under the name of a field; the result of the guard is dropped
    and [value] returned. *)
Definition validate_block_document_name (value : option string) : Result (option string) :=
  match value with
  | Some _ =>
      let* _ := raise_on_name_alphanumeric_dashes_only value "Block document name" in
      Return value
  | None => Return value
  end.

Definition validate_artifact_key (value : string) : Result string :=
  let* _ := raise_on_name_alphanumeric_dashes_only (Some value) "Artifact key" in
  Return value.

Definition validate_variable_name (value : option string) : Result (option string) :=
  match value with
  | Some _ =>
      let* _ := raise_on_name_alphanumeric_underscores_only value "Variable name" in
      Return value
  | None => Return value
  end.

Definition validate_block_type_slug (value : string) : Result string :=
  let* _ := raise_on_name_alphanumeric_dashes_only (Some value) "Block type slug" in
  Return value.


(** [isinstance(v, list) and len(v) > 50]: a value that is not a list is
    not measured. *)
Definition list_length_50_or_less (v : PyVal) : Result PyVal :=
  match v with
  | PList xs =>
      if 50 <? Z.of_nat (length xs)
      then Raise (ValueError "Can not configure more than 50 retry delays per task.")
      else Return v
  | _ => Return v
  end.

(** A Python number, for a field typed [Optional[float]]. *)
Inductive PyNumber : Type :=
| NumInt (z : Z)
| NumFloat (f : spec_float).

(** [v < 0], the comparison of IEEE 754 for a float. *)
Definition number_lt_zero (v : PyNumber) : bool :=
  match v with
  | NumInt z => z <? 0
  | NumFloat f => SFltb f (S754_zero false)
  end.

Definition validate_not_negative (v : option PyNumber) : Result (option PyNumber) :=
  match v with
  | Some x =>
      if number_lt_zero x
      then Raise (ValueError "`retry_jitter_factor` must be >= 0.")
      else Return v
  | None => Return v
  end.

(** [not v] for an optional string: [None] and the empty string. *)
Definition str_falsy (v : option string) : bool :=
  match v with
  | None => true
  | Some s => String.eqb s EmptyString
  end.

Definition return_v_or_none (v : option string) : option string :=
  if str_falsy v then None else v.

(** [key in value]. *)
Definition dict_contains (value : gmap string PyVal) (key : string) : bool :=
  bool_decide (is_Some (value !! key)).

Definition validate_dump_kwargs (value : gmap string PyVal) : Result (gmap string PyVal) :=
  if dict_contains value "default"
  then Raise (ValueError "`default` cannot be provided. Use `object_encoder` instead.")
  else Return value.

Definition validate_load_kwargs (value : gmap string PyVal) : Result (gmap string PyVal) :=
  if dict_contains value "object_hook"
  then Raise (ValueError "`object_hook` cannot be provided. Use `object_decoder` instead.")
  else Return value.

Definition validate_name_present_on_nonanonymous_blocks (values : gmap string PyVal)
  : Result (gmap string PyVal) :=
  if negb (truthy (dict_get values "is_anonymous" PNone))
     && negb (truthy (dict_get values "name" PNone))
  then Raise (ValueError "Names must be provided for block documents.")
  else Return values.

Section OtherValidators.

(** [jsonschema.validate]; [jsonschema.Draft202012Validator.check_schema],
    which returns or raises a [SchemaError] with a message; and the value
    of the setting [PREFECT_API_TASK_CACHE_KEY_MAX_LENGTH]. *)
Variable jsonschema_validate : PyVal -> PyVal -> JsonschemaOutcome.
Variable check_schema : PyVal -> option string.
Variable PREFECT_API_TASK_CACHE_KEY_MAX_LENGTH : Z.

Definition validate_parameters_conform_to_schema
    (parameters : PyVal) (values : gmap string PyVal) : Result PyVal :=
  if truthy (dict_get values "enforce_parameter_schema" PNone)
  then let* _ := validate_values_conform_to_schema jsonschema_validate parameters
                   (dict_get values "parameter_openapi_schema" PNone) true in
       Return parameters
  else Return parameters.

Definition validate_parameter_openapi_schema
    (schema : PyVal) (values : gmap string PyVal) : Result PyVal :=
  if truthy (dict_get values "enforce_parameter_schema" PNone)
  then match (if negb (is_none schema) then check_schema schema else None) with
       | Some message =>
           Raise (ValueError
                    ("The provided schema is not a valid json schema. Schema error: "
                     +:+ message))
       | None => Return schema
       end
  else Return schema.


End OtherValidators.

(** [s] without the line feed that ends it, if one does. *)
Fixpoint without_final_newline (s : string) : string :=
  match s with
  | EmptyString => EmptyString
  | String c rest =>
      if at_eol s then EmptyString else String c (without_final_newline rest)
  end.

(** The strings the name patterns match: characters of the class, and
    possibly one line feed after them. *)
Definition name_matches (cls : ascii -> bool) (s : string) : bool :=
  string_forall cls (without_final_newline s).

(** The four keys [remove_old_deployment_fields] pops. *)
Definition OLD_DEPLOYMENT_FIELDS : list string :=
  ["worker_pool_queue_id"; "worker_pool_name"; "worker_pool_queue_name"; "work_pool_queue_name"].

(** ** Part II. Properties *)

(** *** Strings *)

Lemma append_cons (c : ascii) (s t : string) : String c s +:+ t = String c (s +:+ t).
Proof. reflexivity. Qed.

Lemma append_nil_l (s : string) : EmptyString +:+ s = s.
Proof. reflexivity. Qed.

Lemma append_nil_r (s : string) : s +:+ EmptyString = s.
Proof.
  induction s as [|c s IH]; [reflexivity|].
  by rewrite append_cons, IH.
Qed.

Lemma append_assoc (a b c : string) : (a +:+ b) +:+ c = a +:+ (b +:+ c).
Proof.
  induction a as [|x a IH]; [reflexivity|].
  by rewrite !append_cons, IH.
Qed.

Lemma length_append (a b : string) :
  String.length (a +:+ b) = (String.length a + String.length b)%nat.
Proof.
  induction a as [|x a IH]; [reflexivity|].
  rewrite append_cons. simpl. by rewrite IH.
Qed.

Lemma append_eq_nil (a b : string) : a +:+ b = EmptyString -> b = EmptyString.
Proof. destruct a; [done | discriminate]. Qed.

(** *** NameFormatGuard *)

Section NameFormatGuard.

Variable cls : ascii -> bool.

Lemma re_match_anchored_class (value : string) :
  re_match (Seq Bol (Seq (ClassStar cls) Eol)) value
  = star_match cls 0 value (then_eol (fun _ _ => true)).
Proof. reflexivity. Qed.

Lemma star_match_all (s : string) (pos : nat) :
  string_forall cls s = true ->
  star_match cls pos s (then_eol (fun _ _ => true)) = true.
Proof.
  revert pos. induction s as [|c s IH]; intros pos Hall; simpl in *.
  - reflexivity.
  - apply andb_true_iff in Hall as [Hc Hs].
    rewrite Hc, (IH _ Hs). reflexivity.
Qed.

Lemma star_match_one_newline (s : string) (pos : nat) :
  string_forall cls s = true ->
  star_match cls pos (s +:+ String newline EmptyString) (then_eol (fun _ _ => true)) = true.
Proof.
  revert pos. induction s as [|c s IH]; intros pos Hall.
  - rewrite append_nil_l. simpl. unfold then_eol. simpl. apply orb_true_r.
  - rewrite append_cons. simpl in *.
    apply andb_true_iff in Hall as [Hc Hs].
    rewrite Hc, (IH _ Hs). reflexivity.
Qed.

Lemma at_eol_two_newlines (s : string) (n : nat) :
  at_eol (s +:+ str_mul (String newline EmptyString) (S (S n))) = false.
Proof.
  destruct s as [|c s]; [reflexivity|].
  rewrite append_cons. simpl.
  destruct (s +:+ _) eqn:E; [|reflexivity].
  apply append_eq_nil in E. discriminate.
Qed.

Lemma star_match_two_newlines (s : string) (n pos : nat) :
  cls newline = false ->
  star_match cls pos (s +:+ str_mul (String newline EmptyString) (S (S n)))
    (then_eol (fun _ _ => true)) = false.
Proof.
  intros Hnl. revert pos. induction s as [|c s IH]; intros pos.
  - rewrite append_nil_l. simpl. rewrite Hnl. reflexivity.
  - rewrite append_cons. cbn [star_match]. rewrite IH, andb_false_r.
    unfold then_eol. rewrite <- append_cons, at_eol_two_newlines. reflexivity.
Qed.

End NameFormatGuard.

(** C10. A name made of allowed characters and followed by one line feed
    passes both guards and is returned as it is, although the line feed is
    in neither class; followed by two or more line feeds, any name is
    refused. *)
Theorem name_guards_trailing_newline (s field_name : string) :
  (string_forall dash_class s = true ->
   raise_on_name_alphanumeric_dashes_only
     (Some (s +:+ String newline EmptyString)) field_name
   = Return (Some (s +:+ String newline EmptyString)))
  /\ (string_forall underscore_class s = true ->
      raise_on_name_alphanumeric_underscores_only
        (Some (s +:+ String newline EmptyString)) field_name
      = Return (Some (s +:+ String newline EmptyString)))
  /\ dash_class newline = false
  /\ underscore_class newline = false
  /\ (forall n : nat, (2 <= n)%nat ->
      raise_on_name_alphanumeric_dashes_only
        (Some (s +:+ str_mul (String newline EmptyString) n)) field_name
      = Raise (ValueError
                 (field_name +:+ " must only contain lowercase letters, numbers, and dashes."))
      /\ raise_on_name_alphanumeric_underscores_only
           (Some (s +:+ str_mul (String newline EmptyString) n)) field_name
         = Raise (ValueError
                    (field_name
                     +:+ " must only contain lowercase letters, numbers, and underscores."))).
Proof.
  repeat split.
  - intros Hall. unfold raise_on_name_alphanumeric_dashes_only,
      LOWERCASE_LETTERS_NUMBERS_AND_DASHES_ONLY_REGEX.
    by rewrite re_match_anchored_class, star_match_one_newline.
  - intros Hall. unfold raise_on_name_alphanumeric_underscores_only,
      LOWERCASE_LETTERS_NUMBERS_AND_UNDERSCORES_REGEX.
    by rewrite re_match_anchored_class, star_match_one_newline.
  - destruct n as [|[|n]]; [lia | lia |].
    unfold raise_on_name_alphanumeric_dashes_only,
      LOWERCASE_LETTERS_NUMBERS_AND_DASHES_ONLY_REGEX.
    by rewrite re_match_anchored_class, star_match_two_newlines.
  - destruct n as [|[|n]]; [lia | lia |].
    unfold raise_on_name_alphanumeric_underscores_only,
      LOWERCASE_LETTERS_NUMBERS_AND_UNDERSCORES_REGEX.
    by rewrite re_match_anchored_class, star_match_two_newlines.
Qed.

Lemma name_guards_trailing_newline_witness :
  raise_on_name_alphanumeric_dashes_only
    (Some ("my-block-1" +:+ String newline EmptyString)) "value"
  = Return (Some ("my-block-1" +:+ String newline EmptyString))
  /\ raise_on_name_alphanumeric_underscores_only
       (Some ("my_var_1" +:+ String newline EmptyString)) "value"
     = Return (Some ("my_var_1" +:+ String newline EmptyString))
  /\ raise_on_name_alphanumeric_dashes_only
       (Some ("my-block-1" +:+ str_mul (String newline EmptyString) 2)) "value"
     = Raise (ValueError "value must only contain lowercase letters, numbers, and dashes.").
Proof.
  pose proof (name_guards_trailing_newline "my-block-1" "value")
    as (Hdash & _ & _ & _ & Hmany).
  pose proof (name_guards_trailing_newline "my_var_1" "value")
    as (_ & Hunderscore & _).
  split; [|split].
  - apply Hdash. reflexivity.
  - apply Hunderscore. reflexivity.
  - destruct (Hmany 2%nat) as [Hrefused _]; [lia | exact Hrefused].
Defined.

(** *** FieldMigrationReconciler *)

Lemma copy_deprecated_field_condition (modern legacy : string) (values : gmap string PyVal) :
  negb (truthy (dict_get values modern PNone)) && py_ne_zero (dict_get values legacy (PInt 0))
  = absent_or_falsy values modern && present_nonzero values legacy.
Proof.
  unfold dict_get, absent_or_falsy, present_nonzero.
  destruct (values !! modern), (values !! legacy); reflexivity.
Qed.

(** One step never raises: where it reads [values[legacy]] the key is
    there.  It writes [modern] only, and only the value of [legacy]. *)
Lemma copy_deprecated_field_spec (modern legacy : string) (values : gmap string PyVal) :
  exists values',
    copy_deprecated_field modern legacy values = Return values'
    /\ values' !! modern
       = (if absent_or_falsy values modern && present_nonzero values legacy
          then values !! legacy else values !! modern)
    /\ (forall key, key <> modern -> values' !! key = values !! key).
Proof.
  unfold copy_deprecated_field. rewrite copy_deprecated_field_condition.
  destruct (absent_or_falsy values modern && present_nonzero values legacy) eqn:Hc.
  - apply andb_true_iff in Hc as [_ Hl]. unfold present_nonzero in Hl.
    unfold getitem. destruct (values !! legacy) as [x|] eqn:Hx; [|discriminate].
    exists (<[modern := x]> values). simpl. split; [reflexivity|]. split.
    + apply lookup_insert_eq.
    + intros key Hne. by apply lookup_insert_ne.
  - exists values. auto.
Qed.

(** A step for one pair of fields does not change what a step for another
    pair reads. *)
Lemma copy_deprecated_field_commutes (modern legacy modern' legacy' : string)
    (values values' : gmap string PyVal) :
  modern <> modern' -> modern <> legacy' ->
  copy_deprecated_field modern legacy values = Return values' ->
  absent_or_falsy values' modern' && present_nonzero values' legacy'
  = absent_or_falsy values modern' && present_nonzero values legacy'.
Proof.
  intros Hm Hl Hrun.
  destruct (copy_deprecated_field_spec modern legacy values) as (v1 & H1 & _ & Ho1).
  rewrite H1 in Hrun. injection Hrun as ->.
  unfold absent_or_falsy, present_nonzero.
  by rewrite !Ho1 by congruence.
Qed.

(** What [set_run_policy_deprecated_fields] returns, key by key. *)
Lemma set_run_policy_deprecated_fields_spec (values : gmap string PyVal) :
  exists values',
    set_run_policy_deprecated_fields values = Return values'
    /\ values' !! "retries"
       = (if absent_or_falsy values "retries" && present_nonzero values "max_retries"
          then values !! "max_retries" else values !! "retries")
    /\ values' !! "retry_delay"
       = (if absent_or_falsy values "retry_delay" && present_nonzero values "retry_delay_seconds"
          then values !! "retry_delay_seconds" else values !! "retry_delay")
    /\ (forall key, key <> "retries" -> key <> "retry_delay" -> values' !! key = values !! key).
Proof.
  unfold set_run_policy_deprecated_fields.
  destruct (copy_deprecated_field_spec "retries" "max_retries" values)
    as (v1 & H1 & Hm1 & Ho1).
  destruct (copy_deprecated_field_spec "retry_delay" "retry_delay_seconds" v1)
    as (v2 & H2 & Hm2 & Ho2).
  exists v2. rewrite H1. simpl. rewrite H2. simpl. split; [reflexivity|].
  split; [|split].
  - rewrite Ho2 by discriminate. exact Hm1.
  - rewrite Hm2.
    rewrite (copy_deprecated_field_commutes "retries" "max_retries" _ _ values v1)
      by (done || discriminate).
    by rewrite !Ho1 by discriminate.
  - intros key Hk1 Hk2. by rewrite Ho2, Ho1.
Qed.

(** Once a step has run, its condition can hold again only with the value
    it has already copied. *)
Lemma copy_deprecated_field_stable (modern legacy : string) (m m1 : gmap string PyVal) :
  m1 !! modern
  = (if absent_or_falsy m modern && present_nonzero m legacy
     then m !! legacy else m !! modern) ->
  m1 !! legacy = m !! legacy ->
  (if absent_or_falsy m1 modern && present_nonzero m1 legacy
   then m1 !! legacy else m1 !! modern)
  = m1 !! modern.
Proof.
  intros Hmodern Hlegacy.
  destruct (absent_or_falsy m1 modern && present_nonzero m1 legacy) eqn:Hc1; [|reflexivity].
  rewrite Hmodern, Hlegacy.
  destruct (absent_or_falsy m modern && present_nonzero m legacy) eqn:Hc; [reflexivity|].
  exfalso. revert Hc1. unfold absent_or_falsy, present_nonzero in *.
  rewrite Hmodern, Hlegacy. congruence.
Qed.

(** C7. Both reconcilers are idempotent: run on its own result, each
    returns that result again. *)
Theorem reconcilers_idempotent (m : gmap string PyVal) :
  (exists m', set_run_policy_deprecated_fields m = Return m'
              /\ set_run_policy_deprecated_fields m' = Return m')
  /\ (remove_old_deployment_fields (remove_old_deployment_fields m).2).2
     = (remove_old_deployment_fields m).2.
Proof.
  split.
  - destruct (set_run_policy_deprecated_fields_spec m) as (m1 & H1 & Hr1 & Hd1 & Ho1).
    destruct (set_run_policy_deprecated_fields_spec m1) as (m2 & H2 & Hr2 & Hd2 & Ho2).
    exists m1. split; [exact H1|]. rewrite H2. f_equal. apply map_eq. intros key.
    destruct (decide (key = "retries")) as [->|Hk1].
    { rewrite Hr2. apply (copy_deprecated_field_stable _ _ m); [exact Hr1|].
      by apply Ho1. }
    destruct (decide (key = "retry_delay")) as [->|Hk2]; [|by apply Ho2].
    rewrite Hd2. apply (copy_deprecated_field_stable _ _ m); [exact Hd1|].
    by apply Ho1.
  - unfold remove_old_deployment_fields, dict_pop. simpl.
    apply map_eq. intros key.
    rewrite !lookup_delete. repeat case_decide; done.
Qed.

(** C8. [set_run_policy_deprecated_fields] never raises; it sets the modern
    field to the legacy value exactly when the modern field is absent or
    falsy and the legacy field is there and not [0], and changes nothing
    else, so the legacy keys stay.  On [{"retries": 0, "max_retries": 3}]
    it gives [retries == 3]; [reconcile_paused_deployment] on
    [{"paused": None}] gives [paused == False]. *)
Theorem deprecated_fields_copied_forward :
  (forall m : gmap string PyVal,
     exists m',
       set_run_policy_deprecated_fields m = Return m'
       /\ m' !! "retries"
          = (if absent_or_falsy m "retries" && present_nonzero m "max_retries"
             then m !! "max_retries" else m !! "retries")
       /\ m' !! "retry_delay"
          = (if absent_or_falsy m "retry_delay" && present_nonzero m "retry_delay_seconds"
             then m !! "retry_delay_seconds" else m !! "retry_delay")
       /\ m' !! "max_retries" = m !! "max_retries"
       /\ m' !! "retry_delay_seconds" = m !! "retry_delay_seconds"
       /\ (forall key, key <> "retries" -> key <> "retry_delay" -> m' !! key = m !! key))
  /\ set_run_policy_deprecated_fields
       (<["retries" := PInt 0]> (<["max_retries" := PInt 3]> ∅))
     = Return (<["retries" := PInt 3]> (<["max_retries" := PInt 3]> ∅))
  /\ reconcile_paused_deployment (<["paused" := PNone]> ∅) !! "paused" = Some (PBool false)
  /\ reconcile_paused_deployment (<["paused" := PNone]> ∅) = <["paused" := PBool false]> ∅.
Proof.
  split; [|split; [|split]].
  - intros m.
    destruct (set_run_policy_deprecated_fields_spec m) as (m' & Hrun & Hr & Hd & Ho).
    exists m'. repeat split; try assumption; apply Ho; discriminate.
  - vm_compute. reflexivity.
  - vm_compute. reflexivity.
  - vm_compute. reflexivity.
Qed.

(** *** MetadataSanitizer *)

Lemma length_slice_to (n : nat) (s : string) :
  String.length (slice_to n s) = Nat.min n (String.length s).
Proof.
  unfold slice_to. revert s. induction n as [|n IH]; intros [|c s]; simpl; try reflexivity.
  by rewrite IH.
Qed.

Lemma slice_to_prefix (n : nat) (s : string) :
  exists rest, s = slice_to n s +:+ rest.
Proof.
  unfold slice_to. revert s. induction n as [|n IH]; intros [|c s]; simpl.
  - by exists EmptyString.
  - by exists (String c s).
  - by exists EmptyString.
  - destruct (IH s) as [rest Hrest]. exists rest.
    rewrite append_cons. by rewrite <- Hrest.
Qed.

Section MetadataSanitizer.

Variable str_other : PyVal -> Result string.

Lemma py_str_text_of (x : PyVal) :
  str_defined str_other x = true -> py_str str_other x = Return (text_of str_other x).
Proof. unfold str_defined, text_of. by destruct (py_str str_other x). Qed.

(** One turn of the loop on a key of the mapping whose value has a text:
    no exception, and the value under the key becomes its sanitized
    form. *)
Lemma truncate_metadata_value_spec (v : gmap string PyVal) (key : string) (x : PyVal) :
  v !! key = Some x ->
  str_defined str_other x = true ->
  truncate_metadata_value str_other 500 v key
  = Return (<[key := sanitized str_other x]> v).
Proof.
  intros Hx Hstr. unfold truncate_metadata_value, getitem, sanitized. rewrite Hx.
  cbn [bind]. rewrite (py_str_text_of x Hstr). cbn [bind].
  destruct (500 <? len (text_of str_other x)).
  - reflexivity.
  - by rewrite insert_id.
Qed.

(** One turn of the loop on a key whose value has no text: the exception
    of [str]. *)
Lemma truncate_metadata_value_raises (v : gmap string PyVal) (key : string) (x : PyVal)
    (e : PyExc) :
  v !! key = Some x ->
  py_str str_other x = Raise e ->
  truncate_metadata_value str_other 500 v key = Raise e.
Proof.
  intros Hx Hstr. unfold truncate_metadata_value, getitem. rewrite Hx.
  cbn [bind]. by rewrite Hstr.
Qed.

Lemma str_defined_sanitized (x : PyVal) :
  str_defined str_other x = true -> str_defined str_other (sanitized str_other x) = true.
Proof.
  intros Hstr. unfold sanitized. by destruct (500 <? len (text_of str_other x)).
Qed.

Lemma metadata_loop_spec (keys : list string) (v : gmap string PyVal) :
  NoDup keys ->
  (forall key, key ∈ keys -> exists x, v !! key = Some x /\ str_defined str_other x = true) ->
  exists v',
    metadata_loop str_other 500 keys v = Return v'
    /\ forall key,
         v' !! key = if bool_decide (key ∈ keys)
                     then sanitized str_other <$> v !! key else v !! key.
Proof.
  unfold metadata_loop. revert v.
  induction keys as [|k keys IH]; intros v Hnodup Hin.
  - exists v. split; [reflexivity|]. intros key.
    case_bool_decide as Hkey; [by apply elem_of_nil in Hkey | reflexivity].
  - apply NoDup_cons in Hnodup as [Hk Hnodup].
    destruct (Hin k) as (x & Hx & Hstr); [left|].
    cbn [foldl bind].
    rewrite (truncate_metadata_value_spec v k x Hx Hstr).
    destruct (IH (<[k := sanitized str_other x]> v) Hnodup) as (v' & Hrun & Hlook).
    { intros key Hkey. destruct (decide (key = k)) as [->|Hne].
      - by destruct (Hk Hkey).
      - rewrite lookup_insert_ne by done. apply Hin. by right. }
    exists v'. split; [exact Hrun|]. intros key. rewrite Hlook.
    destruct (decide (key = k)) as [->|Hne].
    + rewrite (bool_decide_eq_false_2 _ Hk), lookup_insert_eq.
      rewrite bool_decide_eq_true_2 by left. by rewrite Hx.
    + rewrite lookup_insert_ne by done.
      assert (bool_decide (key ∈ k :: keys) = bool_decide (key ∈ keys)) as ->.
      { apply bool_decide_ext. rewrite elem_of_cons. intuition congruence. }
      reflexivity.
Qed.

Lemma validate_max_metadata_length_fmap (m : gmap string PyVal) :
  map_Forall (fun _ x => str_defined str_other x = true) m ->
  validate_max_metadata_length str_other (Some m)
  = Return (Some (sanitized str_other <$> m)).
Proof.
  intros Hstr. unfold validate_max_metadata_length.
  destruct (metadata_loop_spec (map_to_list m).*1 m) as (v' & Hrun & Hlook).
  - apply NoDup_fst_map_to_list.
  - intros key [[k x] [-> Hkx]]%list_elem_of_fmap.
    apply elem_of_map_to_list in Hkx. simpl. exists x. split; [exact Hkx|].
    exact (Hstr k x Hkx).
  - rewrite Hrun. simpl. do 2 f_equal. apply map_eq. intros key.
    rewrite Hlook, lookup_fmap. case_bool_decide as Hkey; [reflexivity|].
    destruct (m !! key) as [x|] eqn:Hx; [|reflexivity].
    exfalso. apply Hkey. apply list_elem_of_fmap. exists (key, x).
    split; [reflexivity|]. by apply elem_of_map_to_list.
Qed.

(** A mapping with one key whose value has no text: the exception of
    [str]. *)
Lemma validate_max_metadata_length_singleton_raises (key : string) (x : PyVal) (e : PyExc) :
  py_str str_other x = Raise e ->
  validate_max_metadata_length str_other (Some (<[key := x]> ∅)) = Raise e.
Proof.
  intros Hstr. unfold validate_max_metadata_length, metadata_loop.
  rewrite insert_empty, map_to_list_singleton. cbn [fmap list_fmap fst foldl bind].
  rewrite (truncate_metadata_value_raises {[key := x]} key x e); [reflexivity | | exact Hstr].
  apply lookup_singleton_eq.
Qed.

End MetadataSanitizer.

(** The smallest integer with 4301 digits is too long to write. *)
Lemma int_str_over_limit :
  int_str (10 ^ 4300)
  = Raise (ValueError
             ("Exceeds the limit (4300 digits) for integer string conversion; "
              +:+ "use sys.set_int_max_str_digits() to increase the limit")).
Proof.
  unfold int_str, INT_MAX_STR_DIGITS.
  rewrite Z.abs_eq by (apply Z.pow_nonneg; lia).
  by rewrite Z.leb_refl.
Qed.

(** C9, as the specification has it, fails: [str] of an integer of 4301
    digits raises a [ValueError], and [validate_max_metadata_length]
    raises it in turn. *)
Lemma metadata_values_truncated_counterexample :
  validate_max_metadata_length (fun _ => Return EmptyString)
    (Some (<["k" := PInt (10 ^ 4300)]> ∅))
  = Raise (ValueError
             ("Exceeds the limit (4300 digits) for integer string conversion; "
              +:+ "use sys.set_int_max_str_digits() to increase the limit")).
Proof.
  apply validate_max_metadata_length_singleton_raises.
  exact int_str_over_limit.
Qed.

(** C9, amended.  [validate_max_metadata_length] returns [None] for
    [None].  For a mapping in which [str] returns a text for every value,
    it does not raise: every value whose text is longer than 500
    characters becomes the first 500 characters of the text followed by
    the three dots, 503 characters in all, and every other value stays.
    [{"k": "x"*600}] and [{"k": "short"}] are the two cases. *)
Theorem metadata_values_truncated (str_other : PyVal -> Result string) :
  validate_max_metadata_length str_other None = Return None
  /\ (forall m : gmap string PyVal,
        map_Forall (fun _ x => str_defined str_other x = true) m ->
        validate_max_metadata_length str_other (Some m)
        = Return (Some (sanitized str_other <$> m)))
  /\ (forall x : PyVal,
        500 < len (text_of str_other x) ->
        sanitized str_other x = PStr (slice_to 500 (text_of str_other x) +:+ "...")
        /\ len (slice_to 500 (text_of str_other x)) = 500
        /\ len (slice_to 500 (text_of str_other x) +:+ "...") = 503)
  /\ (forall x : PyVal, len (text_of str_other x) <= 500 -> sanitized str_other x = x)
  /\ (forall s : string,
        str_defined str_other (PStr s) = true /\ text_of str_other (PStr s) = s)
  /\ validate_max_metadata_length str_other (Some (<["k" := PStr (str_mul "x" 600)]> ∅))
     = Return (Some (<["k" := PStr (str_mul "x" 500 +:+ "...")]> ∅))
  /\ len (str_mul "x" 500 +:+ "...") = 503
  /\ validate_max_metadata_length str_other (Some (<["k" := PStr "short"]> ∅))
     = Return (Some (<["k" := PStr "short"]> ∅)).
Proof.
  split; [reflexivity|].
  split; [apply validate_max_metadata_length_fmap|].
  split; [|split; [|split; [|split; [|split]]]].
  - intros x Hlong. unfold sanitized.
    assert ((500 <? len (text_of str_other x)) = true) as -> by lia.
    split; [reflexivity|].
    unfold len in *. rewrite length_append, length_slice_to. simpl String.length. lia.
  - intros x Hshort. unfold sanitized.
    assert ((500 <? len (text_of str_other x)) = false) as -> by lia. reflexivity.
  - intros s. split; reflexivity.
  - rewrite validate_max_metadata_length_fmap.
    + rewrite fmap_insert, fmap_empty. vm_compute. reflexivity.
    + intros key x [[_ <-]|[_ Hx]]%lookup_insert_Some; [reflexivity | by simplify_map_eq].
  - vm_compute. reflexivity.
  - rewrite validate_max_metadata_length_fmap.
    + rewrite fmap_insert, fmap_empty. reflexivity.
    + intros key x [[_ <-]|[_ Hx]]%lookup_insert_Some; [reflexivity | by simplify_map_eq].
Qed.

Lemma metadata_values_truncated_witness :
  validate_max_metadata_length (fun _ => Return EmptyString)
    (Some (<["k" := PInt (10 ^ 600)]> ∅))
  = Return (Some (sanitized (fun _ => Return EmptyString)
                    <$> (<["k" := PInt (10 ^ 600)]> ∅)))
  /\ sanitized (fun _ => Return EmptyString) (PInt (10 ^ 600))
     = PStr (slice_to 500 (text_of (fun _ => Return EmptyString) (PInt (10 ^ 600))) +:+ "...")
  /\ sanitized (fun _ => Return EmptyString) (PInt 42) = PInt 42.
Proof.
  pose proof (metadata_values_truncated (fun _ => Return EmptyString))
    as (_ & Hmap & Hlong & Hshort & _).
  split; [|split].
  - apply Hmap. intros key x [[_ <-]|[_ Hx]]%lookup_insert_Some.
    + vm_compute. reflexivity.
    + by rewrite lookup_empty in Hx.
  - apply Hlong. vm_compute. reflexivity.
  - apply Hshort. vm_compute. discriminate.
Defined.

(** *** TimezoneResolver *)

(** C2. [default_timezone] with an explicit zone [v]: a non-empty [v] that
    is not among the zone names raises the [ValueError] for an invalid
    timezone, and any other [v], the empty string too, is returned as it
    is, whatever the context holds.  With no [v] and an [anchor_date] in
    the context: the name of the anchor's zone if it is among the zone
    names, and ["UTC"] if the anchor has no zone or its zone's name is not
    a zone name, as the name [+00:00] of a fixed offset is not.  With no
    [v] and no [anchor_date], and with no context at all: [None]. *)
Theorem default_timezone_resolution (timezones : list string) :
  (forall (v : string) values,
     v <> EmptyString -> v ∉ timezones ->
     default_timezone timezones (Some v) values
     = Raise (ValueError
                ("Invalid timezone: " +:+ dquote +:+ v +:+ dquote
                 +:+ " (specify in IANA tzdata format, for example, America/New_York)")))
  /\ (forall (v : string) values,
        v = EmptyString \/ v ∈ timezones ->
        default_timezone timezones (Some v) values = Return (Some v))
  /\ (forall values, default_timezone timezones (Some EmptyString) values = Return (Some EmptyString))
  /\ (forall (values : gmap string PyVal) (anchor_date : DateTime) (zone : Timezone),
        values !! "anchor_date" = Some (PDateTime anchor_date) ->
        tz anchor_date = Some zone ->
        name zone ∈ timezones ->
        default_timezone timezones None (Some values) = Return (Some (name zone)))
  /\ (forall (values : gmap string PyVal) (anchor_date : DateTime),
        values !! "anchor_date" = Some (PDateTime anchor_date) ->
        tz anchor_date = None ->
        default_timezone timezones None (Some values) = Return (Some "UTC"))
  /\ (forall (values : gmap string PyVal) (anchor_date : DateTime) (zone : Timezone),
        values !! "anchor_date" = Some (PDateTime anchor_date) ->
        tz anchor_date = Some zone ->
        name zone ∉ timezones ->
        default_timezone timezones None (Some values) = Return (Some "UTC"))
  /\ (forall values : gmap string PyVal,
        values !! "anchor_date" = None ->
        default_timezone timezones None (Some values) = Return None)
  /\ default_timezone timezones None None = Return None.
Proof.
  unfold default_timezone. repeat split.
  - intros v values Hne Hnot.
    apply String.eqb_neq in Hne. rewrite Hne.
    by rewrite bool_decide_eq_false_2.
  - intros v values [-> | Hin]; [reflexivity|].
    rewrite (bool_decide_eq_true_2 _ Hin). by rewrite andb_false_r.
  - intros values anchor_date zone -> Hzone Hin. cbn [getattr_tz bind]. rewrite Hzone.
    by rewrite (bool_decide_eq_true_2 _ Hin).
  - intros values anchor_date -> Hzone. cbn [getattr_tz bind]. rewrite Hzone.
    by case_bool_decide.
  - intros values anchor_date zone -> Hzone Hnot. cbn [getattr_tz bind]. rewrite Hzone.
    by rewrite (bool_decide_eq_false_2 _ Hnot).
  - by intros values ->.
Qed.

Lemma default_timezone_resolution_witness :
  default_timezone ["UTC"; "America/New_York"] (Some "Mars/Olympus") None
  = Raise (ValueError
             ("Invalid timezone: " +:+ dquote +:+ "Mars/Olympus" +:+ dquote
              +:+ " (specify in IANA tzdata format, for example, America/New_York)"))
  /\ default_timezone ["UTC"; "America/New_York"] (Some "America/New_York") None
     = Return (Some "America/New_York")
  /\ default_timezone ["UTC"; "America/New_York"] None
       (Some (<["anchor_date" :=
                  PDateTime {| timestamp := 0; tz := Some {| name := "America/New_York" |} |}]> ∅))
     = Return (Some "America/New_York")
  /\ default_timezone ["UTC"; "America/New_York"] None
       (Some (<["anchor_date" := PDateTime {| timestamp := 0; tz := None |}]> ∅))
     = Return (Some "UTC")
  /\ default_timezone ["UTC"; "America/New_York"] None
       (Some (<["anchor_date" :=
                  PDateTime {| timestamp := 0; tz := Some {| name := "+00:00" |} |}]> ∅))
     = Return (Some "UTC")
  /\ default_timezone ["UTC"; "America/New_York"] None (Some (<["cron" := PStr "0 0 * * *"]> ∅))
     = Return None.
Proof.
  pose proof (default_timezone_resolution ["UTC"; "America/New_York"])
    as (Hbad & Hgood & _ & Hnamed & Hnaive & Hoffset & Hcron & _).
  split; [|split; [|split; [|split; [|split]]]].
  - apply Hbad; [discriminate | compute_done].
  - apply Hgood. right. compute_done.
  - apply (Hnamed _ {| timestamp := 0; tz := Some {| name := "America/New_York" |} |}
             {| name := "America/New_York" |}); [reflexivity | reflexivity | compute_done].
  - apply (Hnaive _ {| timestamp := 0; tz := None |}); reflexivity.
  - apply (Hoffset _ {| timestamp := 0; tz := Some {| name := "+00:00" |} |}
             {| name := "+00:00" |}); [reflexivity | reflexivity | compute_done].
  - apply Hcron. reflexivity.
Defined.

(** *** ScheduleGrammarValidator *)

(** The test [c.casefold() in ["R", "H", "r", "h"]] holds of exactly the
    four tokens [r], [R], [h] and [H]: of the 256 strings of one
    character by computation, and of no other string. *)
Lemma casefold_random_or_hashed_char (a : ascii) :
  bool_decide (casefold (String a EmptyString) ∈ ["R"; "H"; "r"; "h"])
  = bool_decide (String a EmptyString ∈ ["r"; "R"; "h"; "H"]).
Proof. destruct a as [[] [] [] [] [] [] [] []]; vm_compute; reflexivity. Qed.

Lemma casefold_random_or_hashed (c : string) :
  casefold c ∈ ["R"; "H"; "r"; "h"] <-> c ∈ ["r"; "R"; "h"; "H"].
Proof.
  destruct c as [|a [|b rest]].
  - simpl. rewrite !elem_of_cons, !elem_of_nil. intuition discriminate.
  - rewrite <- (bool_decide_eq_true (casefold _ ∈ _)).
    rewrite <- (bool_decide_eq_true (String a EmptyString ∈ _)).
    by rewrite casefold_random_or_hashed_char.
  - simpl. rewrite !elem_of_cons, !elem_of_nil. intuition discriminate.
Qed.

Lemma has_random_or_hashed_token (v c : string) :
  c ∈ split v -> c ∈ ["r"; "R"; "h"; "H"] -> has_random_or_hashed v = true.
Proof.
  intros Hsplit Hc. unfold has_random_or_hashed.
  apply existsb_exists. exists c. split.
  - apply list_elem_of_In, list_elem_of_filter. split; [|exact Hsplit].
    by apply casefold_random_or_hashed.
  - revert Hc. rewrite !elem_of_cons, elem_of_nil.
    intros [->|[->|[->|[->|[]]]]]; reflexivity.
Qed.

(** C1. A cron string with a white-space separated field that is [r], [R],
    [h] or [H] is refused with a [ValueError], whatever [croniter] says of
    it; when [croniter] takes the string, the error is the one for random
    and hashed expressions.  ["0 0 * * *"], taken by [croniter], is
    returned as it is. *)
Theorem validate_cron_string_random_hashed (croniter_is_valid : string -> bool) :
  (forall v c : string,
     c ∈ split v -> c ∈ ["r"; "R"; "h"; "H"] ->
     (exists msg, validate_cron_string croniter_is_valid v = Raise (ValueError msg))
     /\ (croniter_is_valid v = true ->
         validate_cron_string croniter_is_valid v
         = Raise (ValueError
                    ("Random and Hashed expressions are unsupported, received: "
                     +:+ dquote +:+ v +:+ dquote))))
  /\ (croniter_is_valid "0 0 * * *" = true ->
      validate_cron_string croniter_is_valid "0 0 * * *" = Return "0 0 * * *").
Proof.
  unfold validate_cron_string. split.
  - intros v c Hsplit Hc.
    rewrite (has_random_or_hashed_token v c Hsplit Hc).
    split.
    + destruct (croniter_is_valid v); simpl; eauto.
    + by intros ->.
  - by intros ->.
Qed.

Lemma validate_cron_string_random_hashed_witness :
  validate_cron_string (fun _ => true) "R * * * *"
  = Raise (ValueError
             ("Random and Hashed expressions are unsupported, received: "
              +:+ dquote +:+ "R * * * *" +:+ dquote))
  /\ validate_cron_string (fun _ => true) "0 0 * * *" = Return "0 0 * * *".
Proof.
  pose proof (validate_cron_string_random_hashed (fun _ => true)) as (Hrefused & Haccepted).
  split.
  - destruct (Hrefused "R * * * *" "R") as [_ Hmsg]; [compute_done | compute_done |].
    apply Hmsg. reflexivity.
  - apply Haccepted. reflexivity.
Defined.

Lemma validate_rrule_string_parsed (rrulestr : string -> RruleOutcome) (v : string) :
  rrulestr v = Parsed ->
  MAX_RRULE_LENGTH < len v ->
  validate_rrule_string rrulestr v = Raise (rrule_limit_error v).
Proof.
  intros Hparsed Hlong. unfold validate_rrule_string. rewrite Hparsed.
  by assert ((MAX_RRULE_LENGTH <? len v) = true) as -> by lia.
Qed.

Lemma validate_rrule_string_unparsed (rrulestr : string -> RruleOutcome) (v exc : string) :
  rrulestr v = ParseError exc ->
  validate_rrule_string rrulestr v = Raise (rrule_syntax_error v exc).
Proof. intros Hfail. unfold validate_rrule_string. by rewrite Hfail. Qed.

(** C3, as the specification has it, fails: a string of 6501 blanks is
    longer than the limit, the parser refuses it, and the error raised is
    the one for a string that does not parse, not the one for the limit. *)
Lemma validate_rrule_string_long_unparsed_counterexample :
  MAX_RRULE_LENGTH < len (str_mul " " (Z.to_nat 6501))
  /\ validate_rrule_string blank_refusing_rrulestr (str_mul " " (Z.to_nat 6501))
     = Raise (rrule_syntax_error (str_mul " " (Z.to_nat 6501)) "empty string")
  /\ validate_rrule_string blank_refusing_rrulestr (str_mul " " (Z.to_nat 6501))
     <> Raise (rrule_limit_error (str_mul " " (Z.to_nat 6501))).
Proof.
  split; [vm_compute; reflexivity|].
  assert (blank_refusing_rrulestr (str_mul " " (Z.to_nat 6501)) = ParseError "empty string")
    as Hfail by (vm_compute; reflexivity).
  rewrite (validate_rrule_string_unparsed _ _ _ Hfail).
  split; [reflexivity|].
  vm_compute. discriminate.
Qed.

(** C3, amended.  For a string longer than 6500 characters: when it
    parses, the error raised is the one for the limit, which holds the
    first 40 characters of the string; when the parser raises a
    [ValueError], it is the one for a string that does not parse, which
    holds the whole string and the parser's text.  In both cases it is a
    [ValueError]. *)
Theorem validate_rrule_string_over_limit (rrulestr : string -> RruleOutcome) (v : string) :
  MAX_RRULE_LENGTH < len v ->
  (rrulestr v = Parsed ->
   validate_rrule_string rrulestr v = Raise (rrule_limit_error v))
  /\ (forall exc, rrulestr v = ParseError exc ->
      validate_rrule_string rrulestr v = Raise (rrule_syntax_error v exc))
  /\ (rrulestr v = Parsed \/ (exists exc, rrulestr v = ParseError exc) ->
      exists msg, validate_rrule_string rrulestr v = Raise (ValueError msg)).
Proof.
  intros Hlong. split; [|split].
  - intros Hparsed. by apply validate_rrule_string_parsed.
  - intros exc. apply validate_rrule_string_unparsed.
  - intros [Hout | [exc Hout]].
    + rewrite (validate_rrule_string_parsed _ _ Hout Hlong). unfold rrule_limit_error. eauto.
    + rewrite (validate_rrule_string_unparsed _ _ _ Hout). unfold rrule_syntax_error. eauto.
Qed.

Lemma validate_rrule_string_over_limit_witness :
  validate_rrule_string (fun _ => Parsed) (str_mul "FREQ=DAILY;" 591)
  = Raise (rrule_limit_error (str_mul "FREQ=DAILY;" 591))
  /\ validate_rrule_string blank_refusing_rrulestr (str_mul " " (Z.to_nat 6501))
     = Raise (rrule_syntax_error (str_mul " " (Z.to_nat 6501)) "empty string").
Proof.
  assert (MAX_RRULE_LENGTH < len (str_mul "FREQ=DAILY;" 591)) as Hrule
    by (vm_compute; reflexivity).
  assert (MAX_RRULE_LENGTH < len (str_mul " " (Z.to_nat 6501))) as Hblank
    by (vm_compute; reflexivity).
  assert (blank_refusing_rrulestr (str_mul " " (Z.to_nat 6501)) = ParseError "empty string")
    as Hrefused by (vm_compute; reflexivity).
  destruct (validate_rrule_string_over_limit (fun _ => Parsed) _ Hrule) as (Hlimit & _ & _).
  destruct (validate_rrule_string_over_limit blank_refusing_rrulestr _ Hblank)
    as (_ & Hsyntax & _).
  split.
  - exact (Hlimit eq_refl).
  - exact (Hsyntax _ Hrefused).
Defined.

Lemma pretty_max_rrule_length : pretty MAX_RRULE_LENGTH = "6500".
Proof. vm_compute. reflexivity. Qed.

Lemma pretty_6501 : pretty 6501 = "6501".
Proof. vm_compute. reflexivity. Qed.

(** C4. A string of 6501 characters that parses is refused with the error
    for the limit, and what the message shows of the string is its first
    40 characters. *)
Theorem validate_rrule_string_length_6501 (rrulestr : string -> RruleOutcome) (v : string) :
  len v = 6501 ->
  rrulestr v = Parsed ->
  validate_rrule_string rrulestr v
  = Raise (ValueError
             ("Invalid RRule string " +:+ dquote +:+ slice_to 40 v +:+ "..." +:+ dquote
              +:+ String newline EmptyString +:+ "Max length is 6500, got 6501"))
  /\ len (slice_to 40 v) = 40
  /\ (exists rest, v = slice_to 40 v +:+ rest).
Proof.
  intros Hlen Hparsed. split; [|split].
  - rewrite (validate_rrule_string_parsed _ _ Hparsed) by (rewrite Hlen; reflexivity).
    unfold rrule_limit_error. rewrite Hlen, pretty_max_rrule_length, pretty_6501.
    reflexivity.
  - unfold len in *. rewrite length_slice_to. lia.
  - apply slice_to_prefix.
Qed.

Lemma validate_rrule_string_length_6501_witness :
  validate_rrule_string (fun _ => Parsed) (str_mul "FREQ=DAILY;" 591)
  = Raise (ValueError
             ("Invalid RRule string " +:+ dquote
              +:+ slice_to 40 (str_mul "FREQ=DAILY;" 591) +:+ "..." +:+ dquote
              +:+ String newline EmptyString +:+ "Max length is 6500, got 6501"))
  /\ slice_to 40 (str_mul "FREQ=DAILY;" 591) = "FREQ=DAILY;FREQ=DAILY;FREQ=DAILY;FREQ=DA".
Proof.
  assert (len (str_mul "FREQ=DAILY;" 591) = 6501) as Hlen by (vm_compute; reflexivity).
  destruct (validate_rrule_string_length_6501 (fun _ => Parsed) _ Hlen eq_refl)
    as (Hraise & _ & _).
  split; [exact Hraise | vm_compute; reflexivity].
Defined.

(** *** SchemaConformanceChecker *)

Lemma replace_from_no_occurrence (old new s : string) :
  occurs old s = false -> replace_from old new 0 s = s.
Proof.
  induction s as [|c s IH]; [reflexivity|].
  cbn [occurs replace_from]. intros [Hhere Hrest]%orb_false_iff.
  by rewrite Hhere, IH.
Qed.

(** [("$." + p).replace("$.", "")] is [p] when [p] has no ["$."] of its
    own. *)
Lemma replace_path_prefix (p : string) :
  occurs "$." p = false -> replace "$." EmptyString ("$." +:+ p) = p.
Proof.
  intros Hp. unfold replace.
  change ("$." +:+ p) with (String "$" (String "." p)).
  cbn -[occurs]. destruct p as [|c p]; [reflexivity|].
  by apply replace_from_no_occurrence.
Qed.

Lemma repr_char_plain (c : ascii) :
  plain_char c = true -> repr_char "'" c = String c EmptyString.
Proof. destruct c as [[] [] [] [] [] [] [] []]; vm_compute; (reflexivity || discriminate). Qed.

Lemma plain_char_not_quote (c : ascii) : plain_char c = true -> Ascii.eqb "'" c = false.
Proof. destruct c as [[] [] [] [] [] [] [] []]; vm_compute; (reflexivity || discriminate). Qed.

Lemma repr_chars_plain (p : string) :
  string_forall plain_char p = true ->
  contains_char "'" p = false /\ repr_chars "'" p = p.
Proof.
  induction p as [|c p IH]; [done|].
  cbn [string_forall contains_char repr_chars].
  intros [Hc Hp]%andb_true_iff. destruct (IH Hp) as [Hquote Hrepr].
  by rewrite (plain_char_not_quote c Hc), Hquote, (repr_char_plain c Hc), Hrepr.
Qed.

(** [repr] of a string of plain characters is the string in single
    quotes. *)
Lemma py_repr_str_plain (p : string) :
  string_forall plain_char p = true -> py_repr_str p = "'" +:+ p +:+ "'".
Proof.
  intros Hp. destruct (repr_chars_plain p Hp) as [Hquote Hrepr].
  unfold py_repr_str, repr_quote. rewrite Hquote. cbn [andb]. by rewrite Hrepr.
Qed.

Lemma substring_all (s : string) : substring 0 (String.length s) s = s.
Proof. induction s as [|c s IH]; [reflexivity|]. simpl. by rewrite IH. Qed.

Lemma strip_path_prefix (p : string) : strip_prefix "$." ("$." +:+ p) = p.
Proof.
  unfold strip_prefix. change ("$." +:+ p) with (String "$" (String "." p)).
  cbn. destruct p as [|c p]; [reflexivity|].
  rewrite Nat.sub_0_r. apply (substring_all (String c p)).
Qed.

Lemma is_none_remove_nested_keys (keys_to_remove : list string) (obj : PyVal) :
  is_none (remove_nested_keys keys_to_remove obj) = is_none obj.
Proof. by destruct obj. Qed.

Section SchemaConformanceChecker.

Variable jsonschema_validate : PyVal -> PyVal -> JsonschemaOutcome.

(** The message raised for a conformance failure, whatever the path. *)
Lemma validate_values_conform_to_schema_failure
    (values schema : PyVal) (ignore_required : bool) (json_path detail : string) :
  values <> PNone -> schema <> PNone ->
  jsonschema_validate values
    (if ignore_required then remove_nested_keys ["required"] schema else schema)
  = ValidationError json_path detail ->
  validate_values_conform_to_schema jsonschema_validate values schema ignore_required
  = Raise (ValueError
             ((if String.eqb json_path "$" then "Validation failed."
               else "Validation failed for field "
                    +:+ py_repr_str (replace "$." EmptyString json_path) +:+ ".")
              +:+ " Failure reason: " +:+ detail)).
Proof.
  intros Hvalues Hschema Hfail. unfold validate_values_conform_to_schema.
  assert (is_none values = false) as -> by (by destruct values).
  assert (is_none (if ignore_required then remove_nested_keys ["required"] schema else schema)
          = false) as ->.
  { destruct ignore_required; [rewrite is_none_remove_nested_keys|]; by destruct schema. }
  cbn [negb andb]. by rewrite Hfail.
Qed.

End SchemaConformanceChecker.

(** C6, as the specification has it, fails.  For a parameter named
    [it's] the path is [$.it's] and the message has the field in double
    quotes; for a parameter named [a$.b] the path is [$.a$.b] and the
    message names the field [ab]. *)
Lemma conformance_failure_message_counterexample :
  validate_values_conform_to_schema (schema_engine (fun _ => EmptyString))
    (integer_parameter_values "it's") (string_parameter_schema "it's" false) false
  = Raise (ValueError
             ("Validation failed for field " +:+ dquote +:+ "it's" +:+ dquote
              +:+ ". Failure reason: 5 is not of type 'string'"))
  /\ validate_values_conform_to_schema (schema_engine (fun _ => EmptyString))
       (integer_parameter_values "it's") (string_parameter_schema "it's" false) false
     <> Raise (ValueError
                 (specified_conformance_message "$.it's" "5 is not of type 'string'"))
  /\ validate_values_conform_to_schema (schema_engine (fun _ => EmptyString))
       (integer_parameter_values "a$.b") (string_parameter_schema "a$.b" false) false
     = Raise (ValueError
                "Validation failed for field 'ab'. Failure reason: 5 is not of type 'string'")
  /\ validate_values_conform_to_schema (schema_engine (fun _ => EmptyString))
       (integer_parameter_values "a$.b") (string_parameter_schema "a$.b" false) false
     <> Raise (ValueError
                 (specified_conformance_message "$.a$.b" "5 is not of type 'string'")).
Proof.
  split; [vm_compute; reflexivity|].
  split; [vm_compute; discriminate|].
  split; [vm_compute; reflexivity|].
  vm_compute; discriminate.
Qed.

(** C6, amended.  When the engine reports a conformance failure, the
    message is [Validation failed. Failure reason: <detail>] for the path
    [$]; and for a path [$.<dot-path>] whose dot-path has no further [$.]
    and only characters that [repr] leaves as they are inside single
    quotes, it is
    [Validation failed for field '<dot-path>'. Failure reason: <detail>].
    In both cases this is the message of the specification. *)
Theorem conformance_failure_message
    (jsonschema_validate : PyVal -> PyVal -> JsonschemaOutcome)
    (values schema : PyVal) (ignore_required : bool) (json_path detail : string) :
  values <> PNone -> schema <> PNone ->
  jsonschema_validate values
    (if ignore_required then remove_nested_keys ["required"] schema else schema)
  = ValidationError json_path detail ->
  (json_path = "$" ->
   validate_values_conform_to_schema jsonschema_validate values schema ignore_required
   = Raise (ValueError ("Validation failed. Failure reason: " +:+ detail)))
  /\ (forall p : string,
        json_path = "$." +:+ p ->
        occurs "$." p = false ->
        string_forall plain_char p = true ->
        validate_values_conform_to_schema jsonschema_validate values schema ignore_required
        = Raise (ValueError
                   ("Validation failed for field '" +:+ p +:+ "'. Failure reason: " +:+ detail)))
  /\ (json_path = "$"
      \/ (exists p, json_path = "$." +:+ p /\ occurs "$." p = false
                    /\ string_forall plain_char p = true) ->
      validate_values_conform_to_schema jsonschema_validate values schema ignore_required
      = Raise (ValueError (specified_conformance_message json_path detail))).
Proof.
  intros Hvalues Hschema Hfail.
  rewrite (validate_values_conform_to_schema_failure _ _ _ _ _ _ Hvalues Hschema Hfail).
  assert (forall p, json_path = "$." +:+ p -> occurs "$." p = false ->
                    string_forall plain_char p = true ->
                    (if String.eqb json_path "$" then "Validation failed."
                     else "Validation failed for field "
                          +:+ py_repr_str (replace "$." EmptyString json_path) +:+ ".")
                    +:+ " Failure reason: " +:+ detail
                    = "Validation failed for field '" +:+ p +:+ "'. Failure reason: " +:+ detail)
    as Hfield.
  { intros p -> Hocc Hplain.
    rewrite (replace_path_prefix p Hocc), (py_repr_str_plain p Hplain).
    change (String.eqb ("$." +:+ p) "$") with false. cbn iota.
    rewrite !append_assoc. reflexivity. }
  split; [|split].
  - by intros ->.
  - intros p Hpath Hocc Hplain. by rewrite (Hfield p Hpath Hocc Hplain).
  - intros [-> | (p & Hpath & Hocc & Hplain)]; [reflexivity|].
    rewrite (Hfield p Hpath Hocc Hplain). subst json_path.
    unfold specified_conformance_message.
    change (String.eqb ("$." +:+ p) "$") with false. cbn iota.
    by rewrite strip_path_prefix.
Qed.

Lemma conformance_failure_message_witness :
  validate_values_conform_to_schema (schema_engine (fun _ => EmptyString))
    (integer_parameter_values "name") (string_parameter_schema "name" false) false
  = Raise (ValueError
             ("Validation failed for field '" +:+ "name"
              +:+ "'. Failure reason: " +:+ "5 is not of type 'string'"))
  /\ validate_values_conform_to_schema (schema_engine (fun _ => EmptyString))
       (PDict ∅) (string_parameter_schema "name" true) false
     = Raise (ValueError
                ("Validation failed. Failure reason: " +:+ "'name' is a required property")).
Proof.
  assert (schema_engine (fun _ => EmptyString) (integer_parameter_values "name")
            (string_parameter_schema "name" false)
          = ValidationError "$.name" "5 is not of type 'string'") as Hfield
    by (vm_compute; reflexivity).
  assert (schema_engine (fun _ => EmptyString) (PDict ∅) (string_parameter_schema "name" true)
          = ValidationError "$" "'name' is a required property") as Hroot
    by (vm_compute; reflexivity).
  destruct (conformance_failure_message (schema_engine (fun _ => EmptyString))
              (integer_parameter_values "name") (string_parameter_schema "name" false) false
              "$.name" "5 is not of type 'string'") as (_ & Hdot & _);
    [discriminate | discriminate | exact Hfield |].
  destruct (conformance_failure_message (schema_engine (fun _ => EmptyString))
              (PDict ∅) (string_parameter_schema "name" true) false
              "$" "'name' is a required property") as (Hdollar & _ & _);
    [discriminate | discriminate | exact Hroot |].
  split.
  - apply (Hdot "name"); reflexivity.
  - apply Hdollar. reflexivity.
Defined.

(** [remove_nested_keys] at one level of nesting: the keys to remove are
    gone, and the values under the other keys are stripped in turn. *)
Lemma remove_nested_keys_lookup (keys_to_remove : list string) (m : gmap string PyVal) :
  exists m',
    remove_nested_keys keys_to_remove (PDict m) = PDict m'
    /\ forall key,
         m' !! key = if bool_decide (key ∈ keys_to_remove) then None
                     else remove_nested_keys keys_to_remove <$> m !! key.
Proof.
  eexists. split; [reflexivity|]. intros key.
  rewrite map_lookup_imap. destruct (m !! key) as [x|]; simpl; by case_bool_decide.
Qed.

(** With [ignore_required] a parameter that the schema requires may be
    missing; a parameter of the wrong type is refused with and without
    it, here for a parameter named [name]. *)
Lemma ignore_required_examples (repr_other : PyVal -> string) :
  validate_values_conform_to_schema (schema_engine repr_other)
    (PDict ∅) (string_parameter_schema "name" true) false
  = Raise (ValueError "Validation failed. Failure reason: 'name' is a required property")
  /\ validate_values_conform_to_schema (schema_engine repr_other)
       (PDict ∅) (string_parameter_schema "name" true) true
     = Return tt
  /\ (forall ignore_required : bool,
        validate_values_conform_to_schema (schema_engine repr_other)
          (integer_parameter_values "name") (string_parameter_schema "name" true)
          ignore_required
        = Raise (ValueError
                   "Validation failed for field 'name'. Failure reason: 5 is not of type 'string'")).
Proof.
  split; [vm_compute; reflexivity|].
  split; [vm_compute; reflexivity|].
  intros []; vm_compute; reflexivity.
Qed.

(** C5 fails for a parameter named [required].  Its schema is a value
    under the key [required] of [properties], and stripping the keys named
    [required] removes it: without [ignore_required] the integer 5 is
    refused for a string parameter, with [ignore_required] it is
    accepted. *)
Theorem ignore_required_parameter_named_required (repr_other : PyVal -> string) :
  validate_values_conform_to_schema (schema_engine repr_other)
    (integer_parameter_values "required") (string_parameter_schema "required" false) false
  = Raise (ValueError
             "Validation failed for field 'required'. Failure reason: 5 is not of type 'string'")
  /\ validate_values_conform_to_schema (schema_engine repr_other)
       (integer_parameter_values "required") (string_parameter_schema "required" false) true
     = Return tt
  /\ remove_nested_keys ["required"] (string_parameter_schema "required" false)
     = PDict (<["type" := PStr "object"]> (<["properties" := PDict ∅]> ∅)).
Proof.
  split; [vm_compute; reflexivity|].
  split; vm_compute; reflexivity.
Qed.

(** ** Part III. Further properties of the module *)

(** *** The name guards and the validators built on them *)

Lemma star_match_then_eol (cls : ascii -> bool) (s : string) (pos : nat) :
  star_match cls pos s (then_eol (fun _ _ => true)) = name_matches cls s.
Proof.
  unfold name_matches. revert pos. induction s as [|c s IH]; intros pos; [reflexivity|].
  cbn [star_match without_final_newline]. rewrite IH. unfold then_eol.
  destruct (at_eol (String c s)).
  - by rewrite orb_true_r.
  - by rewrite orb_false_r.
Qed.

Lemma raise_on_name_dashes_spec (s field_name : string) :
  raise_on_name_alphanumeric_dashes_only (Some s) field_name
  = (if name_matches dash_class s then Return (Some s)
     else Raise (ValueError
                   (field_name +:+ " must only contain lowercase letters, numbers, and dashes."))).
Proof.
  unfold raise_on_name_alphanumeric_dashes_only,
    LOWERCASE_LETTERS_NUMBERS_AND_DASHES_ONLY_REGEX.
  rewrite re_match_anchored_class, star_match_then_eol.
  by destruct (name_matches dash_class s).
Qed.

Lemma raise_on_name_underscores_spec (s field_name : string) :
  raise_on_name_alphanumeric_underscores_only (Some s) field_name
  = (if name_matches underscore_class s then Return (Some s)
     else Raise (ValueError
                   (field_name
                    +:+ " must only contain lowercase letters, numbers, and underscores."))).
Proof.
  unfold raise_on_name_alphanumeric_underscores_only,
    LOWERCASE_LETTERS_NUMBERS_AND_UNDERSCORES_REGEX.
  rewrite re_match_anchored_class, star_match_then_eol.
  by destruct (name_matches underscore_class s).
Qed.

(** X1. The two guards accept exactly the strings of allowed characters,
    possibly followed by one line feed; they return an accepted name as it
    is and raise the [ValueError] that names the field for every other
    string.  [None] is returned as it is. *)
Theorem name_guards_accept_exactly (s field_name : string) :
  raise_on_name_alphanumeric_dashes_only (Some s) field_name
  = (if name_matches dash_class s then Return (Some s)
     else Raise (ValueError
                   (field_name +:+ " must only contain lowercase letters, numbers, and dashes.")))
  /\ raise_on_name_alphanumeric_underscores_only (Some s) field_name
     = (if name_matches underscore_class s then Return (Some s)
        else Raise (ValueError
                      (field_name
                       +:+ " must only contain lowercase letters, numbers, and underscores.")))
  /\ raise_on_name_alphanumeric_dashes_only None field_name = Return None
  /\ raise_on_name_alphanumeric_underscores_only None field_name = Return None.
Proof.
  split; [apply raise_on_name_dashes_spec|].
  split; [apply raise_on_name_underscores_spec|].
  split; reflexivity.
Qed.

(** A character outside the class, other than a line feed, makes the
    pattern fail wherever it stands. *)
Lemma name_matches_bad_char (cls : ascii -> bool) (before after : string) (c : ascii) :
  cls c = false -> c <> newline ->
  name_matches cls (before +:+ String c after) = false.
Proof.
  intros Hc Hnl. unfold name_matches.
  assert (at_eol (String c after) = false) as Heol.
  { destruct after; [|reflexivity]. simpl. by apply Ascii.eqb_neq. }
  induction before as [|a before IH].
  - rewrite append_nil_l. cbn [without_final_newline]. rewrite Heol.
    cbn [string_forall]. by rewrite Hc.
  - rewrite append_cons. cbn [without_final_newline].
    assert (at_eol (String a (before +:+ String c after)) = false) as ->.
    { simpl. destruct (before +:+ String c after) eqn:E; [|reflexivity].
      apply append_eq_nil in E. discriminate. }
    cbn [string_forall]. by rewrite IH, andb_false_r.
Qed.

(** X2. The four validators of names return their argument exactly when
    the guard of their kind accepts it, and otherwise raise the error of
    the guard under their own field name. *)
Theorem name_validators_accept_exactly (s : string) :
  validate_block_document_name (Some s)
  = (if name_matches dash_class s then Return (Some s)
     else Raise (ValueError
                   "Block document name must only contain lowercase letters, numbers, and dashes."))
  /\ validate_block_document_name None = Return None
  /\ validate_artifact_key s
     = (if name_matches dash_class s then Return s
        else Raise (ValueError
                      "Artifact key must only contain lowercase letters, numbers, and dashes."))
  /\ validate_block_type_slug s
     = (if name_matches dash_class s then Return s
        else Raise (ValueError
                      "Block type slug must only contain lowercase letters, numbers, and dashes."))
  /\ validate_variable_name (Some s)
     = (if name_matches underscore_class s then Return (Some s)
        else Raise (ValueError
                      "Variable name must only contain lowercase letters, numbers, and underscores."))
  /\ validate_variable_name None = Return None.
Proof.
  unfold validate_block_document_name, validate_artifact_key, validate_block_type_slug,
    validate_variable_name.
  rewrite !raise_on_name_dashes_spec, raise_on_name_underscores_spec.
  destruct (name_matches dash_class s), (name_matches underscore_class s);
    repeat split; reflexivity.
Qed.

(** X3. A name with a character that is not allowed, anywhere in it, is
    refused, unless the character is a line feed: so a block document
    name, an artifact key or a block type slug with an upper-case letter or
    an underscore, and a variable name with an upper-case letter or a
    dash. *)
Theorem name_validators_refuse_bad_char (before after : string) (c : ascii) :
  c <> newline ->
  (dash_class c = false ->
   validate_block_document_name (Some (before +:+ String c after))
   = Raise (ValueError
              "Block document name must only contain lowercase letters, numbers, and dashes.")
   /\ validate_artifact_key (before +:+ String c after)
      = Raise (ValueError
                 "Artifact key must only contain lowercase letters, numbers, and dashes.")
   /\ validate_block_type_slug (before +:+ String c after)
      = Raise (ValueError
                 "Block type slug must only contain lowercase letters, numbers, and dashes."))
  /\ (underscore_class c = false ->
      validate_variable_name (Some (before +:+ String c after))
      = Raise (ValueError
                 "Variable name must only contain lowercase letters, numbers, and underscores."))
  /\ (in_range 65 90 c = true -> dash_class c = false /\ underscore_class c = false)
  /\ dash_class "_" = false
  /\ underscore_class "-" = false.
Proof.
  intros Hnl.
  unfold validate_block_document_name, validate_artifact_key, validate_block_type_slug,
    validate_variable_name.
  rewrite !raise_on_name_dashes_spec, raise_on_name_underscores_spec.
  split; [|split; [|split; [|split]]]; try reflexivity.
  - intros Hc. by rewrite (name_matches_bad_char dash_class before after c Hc Hnl).
  - intros Hc. by rewrite (name_matches_bad_char underscore_class before after c Hc Hnl).
  - destruct c as [[] [] [] [] [] [] [] []]; vm_compute; (discriminate || tauto).
Qed.

Lemma name_validators_refuse_bad_char_witness :
  validate_block_document_name (Some ("my" +:+ String "_" "block"))
  = Raise (ValueError
             "Block document name must only contain lowercase letters, numbers, and dashes.")
  /\ validate_variable_name (Some ("my" +:+ String "V" "ar"))
     = Raise (ValueError
                "Variable name must only contain lowercase letters, numbers, and underscores.").
Proof.
  destruct (name_validators_refuse_bad_char "my" "block" "_") as (Hdash & _);
    [discriminate|].
  destruct (name_validators_refuse_bad_char "my" "ar" "V") as (_ & Hunderscore & _);
    [discriminate|].
  split.
  - apply Hdash. reflexivity.
  - apply Hunderscore. reflexivity.
Defined.

(** *** Bounds *)



(** X5. [list_length_50_or_less] measures lists only: a list is returned
    as it is exactly when it has at most 50 elements, and a value that is
    not a list is returned as it is whatever its size. *)
Theorem list_length_50_or_less_bound :
  (forall xs : list PyVal,
     (length xs <= 50)%nat -> list_length_50_or_less (PList xs) = Return (PList xs))
  /\ (forall xs : list PyVal,
        (50 < length xs)%nat ->
        list_length_50_or_less (PList xs)
        = Raise (ValueError "Can not configure more than 50 retry delays per task."))
  /\ (forall v : PyVal,
        (forall xs, v <> PList xs) -> list_length_50_or_less v = Return v).
Proof.
  unfold list_length_50_or_less. split; [|split].
  - intros xs Hlen. by assert ((50 <? Z.of_nat (length xs)) = false) as -> by lia.
  - intros xs Hlen. by assert ((50 <? Z.of_nat (length xs)) = true) as -> by lia.
  - intros v Hv. destruct v; try reflexivity. by destruct (Hv xs).
Qed.

Lemma list_length_50_or_less_bound_witness :
  list_length_50_or_less (PList (repeat (PInt 1) 50)) = Return (PList (repeat (PInt 1) 50))
  /\ list_length_50_or_less (PList (repeat (PInt 1) 51))
     = Raise (ValueError "Can not configure more than 50 retry delays per task.")
  /\ list_length_50_or_less (PStr (str_mul "x" 60)) = Return (PStr (str_mul "x" 60)).
Proof.
  destruct list_length_50_or_less_bound as (Hshort & Hlong & Hother).
  split; [|split].
  - apply Hshort. vm_compute. lia.
  - apply Hlong. vm_compute. lia.
  - apply Hother. discriminate.
Defined.

(** X6. [validate_not_negative] refuses exactly the numbers that compare
    below zero: the negative integers, the negative floats that are finite
    and not zero, and minus infinity.  It accepts NaN and the negative
    zero, which are not below zero, and [None]. *)
Theorem validate_not_negative_refuses :
  (forall z : Z,
     validate_not_negative (Some (NumInt z))
     = (if z <? 0 then Raise (ValueError "`retry_jitter_factor` must be >= 0.")
        else Return (Some (NumInt z))))
  /\ (forall (m : positive) (e : Z),
        validate_not_negative (Some (NumFloat (S754_finite true m e)))
        = Raise (ValueError "`retry_jitter_factor` must be >= 0."))
  /\ validate_not_negative (Some (NumFloat (S754_infinity true)))
     = Raise (ValueError "`retry_jitter_factor` must be >= 0.")
  /\ (forall (m : positive) (e : Z),
        validate_not_negative (Some (NumFloat (S754_finite false m e)))
        = Return (Some (NumFloat (S754_finite false m e))))
  /\ validate_not_negative (Some (NumFloat (S754_infinity false)))
     = Return (Some (NumFloat (S754_infinity false)))
  /\ (forall s : bool,
        validate_not_negative (Some (NumFloat (S754_zero s)))
        = Return (Some (NumFloat (S754_zero s))))
  /\ validate_not_negative (Some (NumFloat S754_nan)) = Return (Some (NumFloat S754_nan))
  /\ validate_not_negative None = Return None.
Proof.
  unfold validate_not_negative.
  split; [|split; [|split; [|split; [|split; [|split; [|split]]]]]]; reflexivity.
Qed.

(** *** Presence and emptiness *)

(** X7. [return_v_or_none] never returns the empty string: its result is
    [None] for [None] and for the empty string, and the string itself
    otherwise; applied again it changes nothing. *)
Theorem return_v_or_none_never_empty (v : option string) :
  return_v_or_none v <> Some EmptyString
  /\ (return_v_or_none v = None <-> v = None \/ v = Some EmptyString)
  /\ (forall s, v = Some s -> s <> EmptyString -> return_v_or_none v = Some s)
  /\ return_v_or_none (return_v_or_none v) = return_v_or_none v.
Proof.
  unfold return_v_or_none, str_falsy. destruct v as [s|].
  - destruct (String.eqb_spec s EmptyString) as [->|Hne]; simpl.
    + repeat split; try done. * by right. * intros s' [= <-] Hs'. done.
    + apply String.eqb_neq in Hne as Hb. rewrite Hb. repeat split; try congruence.
      * intros [|]; congruence.
  - repeat split; try done. by left.
Qed.

Lemma return_v_or_none_never_empty_witness :
  return_v_or_none (Some "3.12") = Some "3.12".
Proof.
  destruct (return_v_or_none_never_empty (Some "3.12")) as (_ & _ & Hkeep & _).
  apply Hkeep; [reflexivity | discriminate].
Defined.



(** X9. [validate_dump_kwargs] and [validate_load_kwargs] test that the
    key is there, not what it holds: with [default] (or [object_hook])
    mapped to anything, [None] too, they raise; without the key they
    return the mapping as it is, whatever else it holds. *)
Theorem serializer_kwargs_reserved_key (value : gmap string PyVal) :
  (forall x, value !! "default" = Some x ->
     validate_dump_kwargs value
     = Raise (ValueError "`default` cannot be provided. Use `object_encoder` instead."))
  /\ (value !! "default" = None -> validate_dump_kwargs value = Return value)
  /\ (forall x, value !! "object_hook" = Some x ->
        validate_load_kwargs value
        = Raise (ValueError "`object_hook` cannot be provided. Use `object_decoder` instead."))
  /\ (value !! "object_hook" = None -> validate_load_kwargs value = Return value).
Proof.
  unfold validate_dump_kwargs, validate_load_kwargs, dict_contains.
  split; [|split; [|split]].
  - intros x Hx. rewrite bool_decide_eq_true_2; [done | by rewrite Hx].
  - intros Hx. rewrite bool_decide_eq_false_2; [done|]. rewrite Hx. by intros [? ?].
  - intros x Hx. rewrite bool_decide_eq_true_2; [done | by rewrite Hx].
  - intros Hx. rewrite bool_decide_eq_false_2; [done|]. rewrite Hx. by intros [? ?].
Qed.

Lemma serializer_kwargs_reserved_key_witness :
  validate_dump_kwargs (<["default" := PNone]> ∅)
  = Raise (ValueError "`default` cannot be provided. Use `object_encoder` instead.")
  /\ validate_load_kwargs (<["default" := PNone]> ∅) = Return (<["default" := PNone]> ∅).
Proof.
  destruct (serializer_kwargs_reserved_key (<["default" := PNone]> ∅))
    as (Hdump & _ & _ & Hload).
  split.
  - apply (Hdump PNone). reflexivity.
  - apply Hload. reflexivity.
Defined.

(** X10. [validate_name_present_on_nonanonymous_blocks] raises exactly
    when [is_anonymous] is absent or falsy and [name] is absent or falsy:
    an anonymous block may have no name, and an empty name counts as no
    name.  Otherwise the mapping is returned as it is. *)
Theorem block_name_required_unless_anonymous (values : gmap string PyVal) :
  (absent_or_falsy values "is_anonymous" = true ->
   absent_or_falsy values "name" = true ->
   validate_name_present_on_nonanonymous_blocks values
   = Raise (ValueError "Names must be provided for block documents."))
  /\ (absent_or_falsy values "is_anonymous" = false
      \/ absent_or_falsy values "name" = false ->
      validate_name_present_on_nonanonymous_blocks values = Return values).
Proof.
  assert (forall key, negb (truthy (dict_get values key PNone)) = absent_or_falsy values key)
    as Hget.
  { intros key. unfold dict_get, absent_or_falsy. by destruct (values !! key). }
  unfold validate_name_present_on_nonanonymous_blocks. rewrite !Hget. split.
  - by intros -> ->.
  - intros [-> | ->]; [reflexivity|]. by rewrite andb_false_r.
Qed.

Lemma block_name_required_unless_anonymous_witness :
  validate_name_present_on_nonanonymous_blocks (<["name" := PStr EmptyString]> ∅)
  = Raise (ValueError "Names must be provided for block documents.")
  /\ validate_name_present_on_nonanonymous_blocks (<["is_anonymous" := PBool true]> ∅)
     = Return (<["is_anonymous" := PBool true]> ∅).
Proof.
  destruct (block_name_required_unless_anonymous (<["name" := PStr EmptyString]> ∅))
    as (Hraise & _).
  destruct (block_name_required_unless_anonymous (<["is_anonymous" := PBool true]> ∅))
    as (_ & Hpass).
  split.
  - apply Hraise; reflexivity.
  - apply Hpass. left. reflexivity.
Defined.

(** *** Schema checks *)

(** X11. [validate_values_conform_to_schema] asks the engine nothing when
    the values or the schema are [None]: it returns, whatever the engine
    would say and with or without [ignore_required].  A [SchemaError] of
    the engine becomes the [ValueError] for an invalid schema.  An
    exception of the engine of another class is not caught: it leaves the
    function as it is.  The function raises nothing else: a [ValueError]
    of its own, or that exception of the engine. *)
Theorem conformance_check_edges
    (jsonschema_validate : PyVal -> PyVal -> JsonschemaOutcome)
    (values schema : PyVal) (ignore_required : bool) :
  (values = PNone \/ schema = PNone ->
   validate_values_conform_to_schema jsonschema_validate values schema ignore_required
   = Return tt)
  /\ (forall message,
        values <> PNone -> schema <> PNone ->
        jsonschema_validate values
          (if ignore_required then remove_nested_keys ["required"] schema else schema)
        = SchemaError message ->
        validate_values_conform_to_schema jsonschema_validate values schema ignore_required
        = Raise (ValueError
                   ("The provided schema is not a valid json schema. Schema error: "
                    +:+ message)))
  /\ (forall cls msg,
        values <> PNone -> schema <> PNone ->
        jsonschema_validate values
          (if ignore_required then remove_nested_keys ["required"] schema else schema)
        = EngineRaises cls msg ->
        validate_values_conform_to_schema jsonschema_validate values schema ignore_required
        = Raise (OtherException cls msg))
  /\ (forall e,
        validate_values_conform_to_schema jsonschema_validate values schema ignore_required
        = Raise e ->
        (exists msg, e = ValueError msg)
        \/ (exists cls msg,
              e = OtherException cls msg
              /\ jsonschema_validate values
                   (if ignore_required then remove_nested_keys ["required"] schema
                    else schema)
                 = EngineRaises cls msg)).
Proof.
  unfold validate_values_conform_to_schema.
  assert (is_none (if ignore_required then remove_nested_keys ["required"] schema else schema)
          = is_none schema) as Hnone.
  { destruct ignore_required; [apply is_none_remove_nested_keys | reflexivity]. }
  rewrite Hnone. split; [|split; [|split]].
  - intros [-> | ->]; [|reflexivity]. by rewrite andb_false_r.
  - intros message Hvalues Hschema Herr.
    assert (is_none values = false) as -> by (by destruct values).
    assert (is_none schema = false) as -> by (by destruct schema).
    cbn [negb andb]. by rewrite Herr.
  - intros cls msg Hvalues Hschema Herr.
    assert (is_none values = false) as -> by (by destruct values).
    assert (is_none schema = false) as -> by (by destruct schema).
    cbn [negb andb]. by rewrite Herr.
  - intros e. destruct (negb (is_none schema) && negb (is_none values)); [|discriminate].
    destruct (jsonschema_validate _ _) as [|json_path message|message|cls msg] eqn:Hout;
      intros [= <-]; eauto 6.
Qed.

Lemma conformance_check_edges_witness :
  validate_values_conform_to_schema (fun _ _ => SchemaError "boom") PNone (PDict ∅) true
  = Return tt
  /\ validate_values_conform_to_schema (fun _ _ => SchemaError "boom") (PDict ∅) (PDict ∅) true
     = Raise (ValueError
                ("The provided schema is not a valid json schema. Schema error: " +:+ "boom"))
  /\ validate_values_conform_to_schema
       (fun _ _ => EngineRaises "RefResolutionError" "unresolvable") (PDict ∅) (PDict ∅) false
     = Raise (OtherException "RefResolutionError" "unresolvable").
Proof.
  destruct (conformance_check_edges (fun _ _ => SchemaError "boom") PNone (PDict ∅) true)
    as (Hnone & _).
  destruct (conformance_check_edges (fun _ _ => SchemaError "boom") (PDict ∅) (PDict ∅) true)
    as (_ & Hschema & _).
  destruct (conformance_check_edges
              (fun _ _ => EngineRaises "RefResolutionError" "unresolvable")
              (PDict ∅) (PDict ∅) false) as (_ & _ & Hother & _).
  split; [|split].
  - apply Hnone. by left.
  - apply Hschema; [discriminate | discriminate | reflexivity].
  - apply Hother; [discriminate | discriminate | reflexivity].
Defined.

(** X12. [validate_parameters_conform_to_schema] checks the parameters
    only under [enforce_parameter_schema]: when that key is absent or
    falsy, or no schema is stored, it returns the parameters whatever the
    engine would say.  Under enforcement the engine sees the schema with
    the keys named [required] stripped, and the parameters are returned as
    they are when it accepts them. *)
Theorem parameters_checked_under_enforcement
    (jsonschema_validate : PyVal -> PyVal -> JsonschemaOutcome)
    (parameters : PyVal) (values : gmap string PyVal) :
  (absent_or_falsy values "enforce_parameter_schema" = true ->
   validate_parameters_conform_to_schema jsonschema_validate parameters values
   = Return parameters)
  /\ (values !! "parameter_openapi_schema" = None ->
      validate_parameters_conform_to_schema jsonschema_validate parameters values
      = Return parameters)
  /\ (forall schema,
        absent_or_falsy values "enforce_parameter_schema" = false ->
        values !! "parameter_openapi_schema" = Some schema ->
        parameters <> PNone -> schema <> PNone ->
        (jsonschema_validate parameters (remove_nested_keys ["required"] schema) = Valid ->
         validate_parameters_conform_to_schema jsonschema_validate parameters values
         = Return parameters)
        /\ (forall json_path message,
              jsonschema_validate parameters (remove_nested_keys ["required"] schema)
              = ValidationError json_path message ->
              exists msg,
                validate_parameters_conform_to_schema jsonschema_validate parameters values
                = Raise (ValueError msg)))
  /\ (forall r,
        validate_parameters_conform_to_schema jsonschema_validate parameters values = Return r ->
        r = parameters).
Proof.
  assert (truthy (dict_get values "enforce_parameter_schema" PNone)
          = negb (absent_or_falsy values "enforce_parameter_schema")) as Hflag.
  { unfold dict_get, absent_or_falsy.
    destruct (values !! "enforce_parameter_schema"); [by rewrite negb_involutive | done]. }
  unfold validate_parameters_conform_to_schema. rewrite Hflag.
  split; [|split; [|split]].
  - by intros ->.
  - intros Hschema. destruct (negb _); [|reflexivity].
    unfold dict_get. rewrite Hschema.
    unfold validate_values_conform_to_schema. cbn [remove_nested_keys is_none negb andb].
    reflexivity.
  - intros schema -> Hschema Hparameters Hnone. unfold dict_get. rewrite Hschema.
    cbn [negb]. split.
    + intros Hvalid. unfold validate_values_conform_to_schema.
      assert (is_none parameters = false) as -> by (by destruct parameters).
      rewrite is_none_remove_nested_keys.
      assert (is_none schema = false) as -> by (by destruct schema).
      cbn [negb andb]. by rewrite Hvalid.
    + intros json_path message Hfail.
      rewrite (validate_values_conform_to_schema_failure jsonschema_validate
                 parameters schema true json_path message Hparameters Hnone Hfail).
      cbn [bind]. eauto.
  - intros r. destruct (negb _); [|congruence].
    destruct (validate_values_conform_to_schema _ _ _ _); cbn [bind]; congruence.
Qed.

Lemma parameters_checked_under_enforcement_witness :
  validate_parameters_conform_to_schema (schema_engine (fun _ => EmptyString))
    (integer_parameter_values "name")
    (<["parameter_openapi_schema" := string_parameter_schema "name" true]> ∅)
  = Return (integer_parameter_values "name")
  /\ validate_parameters_conform_to_schema (schema_engine (fun _ => EmptyString))
       (PDict ∅)
       (<["enforce_parameter_schema" := PBool true]>
          (<["parameter_openapi_schema" := string_parameter_schema "name" true]> ∅))
     = Return (PDict ∅).
Proof.
  destruct (parameters_checked_under_enforcement (schema_engine (fun _ => EmptyString))
              (integer_parameter_values "name")
              (<["parameter_openapi_schema" := string_parameter_schema "name" true]> ∅))
    as (Hoff & _).
  destruct (parameters_checked_under_enforcement (schema_engine (fun _ => EmptyString))
              (PDict ∅)
              (<["enforce_parameter_schema" := PBool true]>
                 (<["parameter_openapi_schema" := string_parameter_schema "name" true]> ∅)))
    as (_ & _ & Hon & _).
  split.
  - apply Hoff. reflexivity.
  - destruct (Hon (string_parameter_schema "name" true)) as (Hvalid & _);
      [reflexivity | reflexivity | discriminate | discriminate |].
    apply Hvalid. vm_compute. reflexivity.
Defined.

(** X13. [validate_parameter_openapi_schema] checks the schema only under
    [enforce_parameter_schema]: without it the schema is returned
    unchecked, also one the checker refuses.  Under enforcement [None] is
    returned unchecked, a schema the checker accepts is returned as it is,
    and a refused one raises the [ValueError] with the checker's message. *)
Theorem openapi_schema_checked_under_enforcement
    (check_schema : PyVal -> option string)
    (schema : PyVal) (values : gmap string PyVal) :
  (absent_or_falsy values "enforce_parameter_schema" = true ->
   validate_parameter_openapi_schema check_schema schema values = Return schema)
  /\ (schema = PNone ->
      validate_parameter_openapi_schema check_schema schema values = Return schema)
  /\ (check_schema schema = None ->
      validate_parameter_openapi_schema check_schema schema values = Return schema)
  /\ (forall message,
        absent_or_falsy values "enforce_parameter_schema" = false ->
        schema <> PNone ->
        check_schema schema = Some message ->
        validate_parameter_openapi_schema check_schema schema values
        = Raise (ValueError
                   ("The provided schema is not a valid json schema. Schema error: "
                    +:+ message))).
Proof.
  assert (truthy (dict_get values "enforce_parameter_schema" PNone)
          = negb (absent_or_falsy values "enforce_parameter_schema")) as Hflag.
  { unfold dict_get, absent_or_falsy.
    destruct (values !! "enforce_parameter_schema"); [by rewrite negb_involutive | done]. }
  unfold validate_parameter_openapi_schema. rewrite Hflag.
  split; [|split; [|split]].
  - by intros ->.
  - intros ->. by destruct (negb _).
  - intros ->. destruct (negb _); [|reflexivity]. by destruct (negb (is_none schema)).
  - intros message -> Hschema ->.
    by assert (is_none schema = false) as -> by (by destruct schema).
Qed.

Lemma openapi_schema_checked_under_enforcement_witness :
  validate_parameter_openapi_schema (fun _ => Some "not a schema") (PInt 5) ∅
  = Return (PInt 5)
  /\ validate_parameter_openapi_schema (fun _ => Some "not a schema") (PInt 5)
       (<["enforce_parameter_schema" := PBool true]> ∅)
     = Raise (ValueError
                ("The provided schema is not a valid json schema. Schema error: "
                 +:+ "not a schema")).
Proof.
  destruct (openapi_schema_checked_under_enforcement (fun _ => Some "not a schema") (PInt 5) ∅)
    as (Hoff & _).
  destruct (openapi_schema_checked_under_enforcement (fun _ => Some "not a schema") (PInt 5)
              (<["enforce_parameter_schema" := PBool true]> ∅)) as (_ & _ & _ & Hon).
  split.
  - apply Hoff. reflexivity.
  - apply Hon; [reflexivity | discriminate | reflexivity].
Defined.

(** *** Schedules *)

Lemma has_random_or_hashed_false (v : string) :
  (forall c, c ∈ split v -> c ∉ ["r"; "R"; "h"; "H"]) -> has_random_or_hashed v = false.
Proof.
  intros Hnone. unfold has_random_or_hashed.
  destruct (existsb _ _) eqn:Hex; [|reflexivity].
  apply existsb_exists in Hex as (c & Hc & _).
  apply list_elem_of_In, list_elem_of_filter in Hc as [Hfold Hsplit].
  apply casefold_random_or_hashed in Hfold. by destruct (Hnone c Hsplit).
Qed.

(** X14. [validate_cron_string] returns a string, as it is, exactly when
    [croniter] takes it and none of its fields is [r], [R], [h] or [H]; a
    field that only contains one of these letters does not count.  A
    string [croniter] refuses raises the error for an invalid cron string,
    with or without such a field. *)
Theorem validate_cron_string_accepts_exactly
    (croniter_is_valid : string -> bool) (v : string) :
  (validate_cron_string croniter_is_valid v = Return v
   <-> croniter_is_valid v = true
       /\ forall c, c ∈ split v -> c ∉ ["r"; "R"; "h"; "H"])
  /\ (croniter_is_valid v = false ->
      validate_cron_string croniter_is_valid v
      = Raise (ValueError ("Invalid cron string: " +:+ dquote +:+ v +:+ dquote)))
  /\ (forall r, validate_cron_string croniter_is_valid v = Return r -> r = v).
Proof.
  unfold validate_cron_string. split; [|split].
  - split.
    + destruct (croniter_is_valid v); [|discriminate]. cbn [negb].
      destruct (has_random_or_hashed v) eqn:Hrh; [discriminate|].
      intros _. split; [reflexivity|]. intros c Hsplit Hc.
      by rewrite (has_random_or_hashed_token v c Hsplit Hc) in Hrh.
    + intros [-> Hnone]. by rewrite (has_random_or_hashed_false v Hnone).
  - by intros ->.
  - intros r. destruct (croniter_is_valid v); [|discriminate]. cbn [negb].
    destruct (has_random_or_hashed v); congruence.
Qed.

Lemma validate_cron_string_accepts_exactly_witness :
  validate_cron_string (fun _ => true) "H/15 * * * *" = Return "H/15 * * * *"
  /\ validate_cron_string (fun _ => false) "R * * * *"
     = Raise (ValueError ("Invalid cron string: " +:+ dquote +:+ "R * * * *" +:+ dquote)).
Proof.
  destruct (validate_cron_string_accepts_exactly (fun _ => true) "H/15 * * * *")
    as ([_ Haccept] & _).
  destruct (validate_cron_string_accepts_exactly (fun _ => false) "R * * * *")
    as (_ & Hinvalid & _).
  split.
  - apply Haccept. split; [reflexivity|].
    intros c Hc. revert Hc. change (split "H/15 * * * *") with ["H/15"; "*"; "*"; "*"; "*"].
    rewrite !elem_of_cons, !elem_of_nil. intuition (subst; discriminate).
  - apply Hinvalid. reflexivity.
Defined.

(** X15. [validate_rrule_string] returns a string, as it is, exactly when
    it parses and has at most 6500 characters: a parsed string of exactly
    6500 characters is returned.  When the parser raises a [ValueError],
    the error raised holds the string and the parser's text, whatever the
    length of the string; an exception of the parser of another class is
    not caught and leaves the function as it is. *)
Theorem validate_rrule_string_accepts_exactly
    (rrulestr : string -> RruleOutcome) (v : string) :
  (validate_rrule_string rrulestr v = Return v
   <-> rrulestr v = Parsed /\ len v <= MAX_RRULE_LENGTH)
  /\ (rrulestr v = Parsed -> len v = 6500 -> validate_rrule_string rrulestr v = Return v)
  /\ (forall exc, rrulestr v = ParseError exc ->
        validate_rrule_string rrulestr v = Raise (rrule_syntax_error v exc))
  /\ (forall cls msg, rrulestr v = ParserRaises cls msg ->
        validate_rrule_string rrulestr v = Raise (OtherException cls msg))
  /\ (forall r, validate_rrule_string rrulestr v = Return r -> r = v).
Proof.
  unfold validate_rrule_string. split; [|split; [|split; [|split]]].
  - destruct (rrulestr v) as [|exc|cls msg];
      [|split; [discriminate | by intros [? _]]..].
    destruct (Z.ltb_spec MAX_RRULE_LENGTH (len v)); split;
      (done || (by intros [_ ?]; lia) || (by intros _; split; [|lia])).
  - intros -> ->. reflexivity.
  - by intros exc ->.
  - by intros cls msg ->.
  - intros r. destruct (rrulestr v); [|discriminate..].
    destruct (MAX_RRULE_LENGTH <? len v); congruence.
Qed.

Lemma validate_rrule_string_accepts_exactly_witness :
  validate_rrule_string (fun _ => Parsed) (str_mul "FREQ=WEEKLY;" 541 +:+ "COUNT=10")
  = Return (str_mul "FREQ=WEEKLY;" 541 +:+ "COUNT=10")
  /\ validate_rrule_string (fun _ => ParserRaises "IndexError" "list index out of range")
       "DTSTART:20240101T000000"
     = Raise (OtherException "IndexError" "list index out of range").
Proof.
  destruct (validate_rrule_string_accepts_exactly (fun _ => Parsed)
              (str_mul "FREQ=WEEKLY;" 541 +:+ "COUNT=10")) as (_ & Hboundary & _).
  destruct (validate_rrule_string_accepts_exactly
              (fun _ => ParserRaises "IndexError" "list index out of range")
              "DTSTART:20240101T000000") as (_ & _ & _ & Hother & _).
  split.
  - apply Hboundary; [reflexivity | vm_compute; reflexivity].
  - apply Hother. reflexivity.
Defined.

(** X16. Whatever [default_timezone] returns is the explicit zone itself
    or, inferred from an anchor date, a zone name or ["UTC"]: a string it
    returns is empty, ["UTC"] or among the zone names.  It returns [None]
    exactly when no zone is given and the context has no [anchor_date].
    With no zone given, an [anchor_date] that is not a timestamp raises
    the [AttributeError] of Python for the attribute [tz], which names the
    type of the value; and [default_timezone] raises nothing but that
    error and the [ValueError] for an invalid zone. *)
Theorem default_timezone_result
    (timezones : list string) (v : option string) (values : option (gmap string PyVal)) :
  (forall r, default_timezone timezones v values = Return (Some r) ->
     r = EmptyString \/ r = "UTC" \/ r ∈ timezones)
  /\ (default_timezone timezones v values = Return None
      <-> v = None /\ (match values with Some m => m | None => ∅ end) !! "anchor_date" = None)
  /\ (forall (m : gmap string PyVal) (x : PyVal),
        v = None -> values = Some m -> m !! "anchor_date" = Some x ->
        (forall d, x <> PDateTime d) ->
        default_timezone timezones v values
        = Raise (AttributeError ("'" +:+ type_name x +:+ "' object has no attribute 'tz'")))
  /\ (forall e, default_timezone timezones v values = Raise e ->
        (exists s, v = Some s /\ s <> EmptyString /\ (s ∉ timezones)
                   /\ (exists msg, e = ValueError msg))
        \/ (exists m x, v = None /\ values = Some m /\ m !! "anchor_date" = Some x
                        /\ (forall d, x <> PDateTime d)
                        /\ (exists msg, e = AttributeError msg))).
Proof.
  unfold default_timezone. split; [|split; [|split]].
  - intros r. destruct v as [s|].
    + destruct (String.eqb_spec s EmptyString) as [->|Hne]; cbn [negb andb].
      * intros [= <-]. by left.
      * case_bool_decide as Hin; cbn [negb]; [|discriminate].
        intros [= <-]. by right; right.
    + destruct (_ !! "anchor_date") as [[]|]; try discriminate.
      cbn [getattr_tz bind].
      case_bool_decide as Hin; intros [= <-]; [by right; right | by right; left].
  - destruct v as [s|].
    + split; [|by intros [? _]].
      destruct (negb _ && negb _); discriminate.
    + destruct (_ !! "anchor_date") as [[]|]; split; try done; by intros [_ ?].
  - intros m x -> -> Hx Hnot. rewrite Hx. destruct x; try reflexivity. by destruct (Hnot d).
  - intros e. destruct v as [s|].
    + destruct (String.eqb_spec s EmptyString) as [->|Hne]; cbn [negb andb]; [discriminate|].
      case_bool_decide as Hin; cbn [negb]; [discriminate|].
      intros [= <-]. left. exists s. eauto.
    + destruct values as [m|]; [|by rewrite lookup_empty].
      destruct (m !! "anchor_date") as [x|] eqn:Hx; [|discriminate].
      destruct x; cbn [getattr_tz bind]; try discriminate;
        intros [= <-]; right; eexists m, _; (repeat split; try done); eauto.
Qed.

Lemma default_timezone_result_witness :
  default_timezone ["UTC"; "Europe/Berlin"] None (Some (<["anchor_date" := PStr "2024-01-01"]> ∅))
  = Raise (AttributeError "'str' object has no attribute 'tz'").
Proof.
  destruct (default_timezone_result ["UTC"; "Europe/Berlin"] None
              (Some (<["anchor_date" := PStr "2024-01-01"]> ∅))) as (_ & _ & Hattr & _).
  apply (Hattr (<["anchor_date" := PStr "2024-01-01"]> ∅) (PStr "2024-01-01"));
    [reflexivity | reflexivity | reflexivity | discriminate].
Defined.

(** *** The reconcilers *)

Lemma remove_old_deployment_fields_lookup (values : gmap string PyVal) (key : string) :
  (remove_old_deployment_fields values).2 !! key
  = if bool_decide (key ∈ OLD_DEPLOYMENT_FIELDS) then None else values !! key.
Proof.
  unfold remove_old_deployment_fields, dict_pop, OLD_DEPLOYMENT_FIELDS. cbn [snd].
  rewrite !lookup_delete. case_bool_decide as Hin.
  - revert Hin. rewrite !elem_of_cons, elem_of_nil.
    intros [->|[->|[->|[->|[]]]]]; repeat case_decide; done.
  - revert Hin. rewrite !elem_of_cons, elem_of_nil. intros Hin.
    repeat case_decide; subst; tauto.
Qed.

Lemma dict_get_delete_ne (values : gmap string PyVal) (gone key : string) (default : PyVal) :
  gone <> key -> dict_get (delete gone values) key default = dict_get values key default.
Proof. intros Hne. unfold dict_get. by rewrite lookup_delete_ne. Qed.

(** X17. [remove_old_deployment_fields] returns the mapping without the
    four old keys and with every other key as it was.  It warns about
    [worker_pool_queue_id] exactly when that key held a truthy value, and
    about the three old names exactly when one of them did: an old key
    with a falsy value is removed without a warning. *)
Theorem remove_old_deployment_fields_result (values : gmap string PyVal) :
  (forall key, key ∈ OLD_DEPLOYMENT_FIELDS ->
     (remove_old_deployment_fields values).2 !! key = None)
  /\ (forall key, key ∉ OLD_DEPLOYMENT_FIELDS ->
        (remove_old_deployment_fields values).2 !! key = values !! key)
  /\ (remove_old_deployment_fields values).1
     = (if absent_or_falsy values "worker_pool_queue_id" then []
        else [WORKER_POOL_QUEUE_ID_WARNING])
       ++ (if absent_or_falsy values "worker_pool_name"
              && absent_or_falsy values "worker_pool_queue_name"
              && absent_or_falsy values "work_pool_queue_name"
           then [] else [WORKER_POOL_NAME_WARNING]).
Proof.
  split; [|split].
  - intros key Hin. rewrite remove_old_deployment_fields_lookup.
    by rewrite bool_decide_eq_true_2.
  - intros key Hin. rewrite remove_old_deployment_fields_lookup.
    by rewrite bool_decide_eq_false_2.
  - assert (forall key, truthy (dict_get values key PNone) = negb (absent_or_falsy values key))
      as Hget.
    { intros key. unfold dict_get, absent_or_falsy.
      destruct (values !! key); [by rewrite negb_involutive | done]. }
    unfold remove_old_deployment_fields, dict_pop. cbn [fst].
    rewrite !dict_get_delete_ne by discriminate. rewrite !Hget.
    destruct (absent_or_falsy values "worker_pool_queue_id"),
      (absent_or_falsy values "worker_pool_name"),
      (absent_or_falsy values "worker_pool_queue_name"),
      (absent_or_falsy values "work_pool_queue_name"); reflexivity.
Qed.

Lemma remove_old_deployment_fields_result_witness :
  (remove_old_deployment_fields
     (<["worker_pool_name" := PNone]> (<["name" := PStr "etl"]> ∅))).2 !! "worker_pool_name"
  = None
  /\ (remove_old_deployment_fields
        (<["worker_pool_name" := PNone]> (<["name" := PStr "etl"]> ∅))).2 !! "name"
     = Some (PStr "etl").
Proof.
  destruct (remove_old_deployment_fields_result
              (<["worker_pool_name" := PNone]> (<["name" := PStr "etl"]> ∅)))
    as (Hgone & Hkept & _).
  split.
  - apply Hgone. compute_done.
  - rewrite Hkept by compute_done. reflexivity.
Defined.

Lemma reconcile_paused_deployment_cases (values : gmap string PyVal) :
  (reconcile_paused_deployment values = <["paused" := PBool false]> values
   /\ (values !! "paused" = None \/ values !! "paused" = Some PNone))
  \/ (reconcile_paused_deployment values = values
      /\ exists x, values !! "paused" = Some x /\ x <> PNone).
Proof.
  unfold reconcile_paused_deployment, dict_get.
  destruct (values !! "paused") as [[]|]; try (left; by eauto); right; by eauto.
Qed.

Lemma reconcile_paused_deployment_other (values : gmap string PyVal) (key : string) :
  key <> "paused" -> reconcile_paused_deployment values !! key = values !! key.
Proof.
  intros Hkey.
  destruct (reconcile_paused_deployment_cases values) as [[-> _] | [-> _]];
    [by rewrite lookup_insert_ne | reflexivity].
Qed.

(** X18. After [reconcile_paused_deployment] the mapping has a [paused]
    that is not [None].  A [paused] that was there and not [None] is
    kept, a falsy one such as [0] too; no other key changes; and a second
    run changes nothing. *)
Theorem reconcile_paused_deployment_result (values : gmap string PyVal) :
  (exists x, reconcile_paused_deployment values !! "paused" = Some x /\ x <> PNone)
  /\ (forall x, values !! "paused" = Some x -> x <> PNone ->
        reconcile_paused_deployment values = values)
  /\ (forall key, key <> "paused" ->
        reconcile_paused_deployment values !! key = values !! key)
  /\ reconcile_paused_deployment (reconcile_paused_deployment values)
     = reconcile_paused_deployment values.
Proof.
  assert (exists x, reconcile_paused_deployment values !! "paused" = Some x /\ x <> PNone)
    as Hpaused.
  { destruct (reconcile_paused_deployment_cases values) as [[-> _] | [-> Hx]]; [|exact Hx].
    exists (PBool false). by rewrite lookup_insert_eq. }
  split; [exact Hpaused|]. split; [|split].
  - intros x Hx Hne.
    destruct (reconcile_paused_deployment_cases values) as [[_ [Hp|Hp]] | [-> _]];
      congruence.
  - apply reconcile_paused_deployment_other.
  - destruct Hpaused as (x & Hx & Hne).
    destruct (reconcile_paused_deployment_cases (reconcile_paused_deployment values))
      as [[_ [Hp|Hp]] | [-> _]]; congruence.
Qed.

Lemma reconcile_paused_deployment_result_witness :
  reconcile_paused_deployment (<["paused" := PInt 0]> ∅) = <["paused" := PInt 0]> ∅.
Proof.
  destruct (reconcile_paused_deployment_result (<["paused" := PInt 0]> ∅)) as (_ & Hkept & _).
  apply (Hkept (PInt 0)); [reflexivity | discriminate].
Defined.

(** X19. [set_run_policy_deprecated_fields] keeps every key of the
    mapping.  A modern field with a truthy value is never overwritten, and
    a mapping with neither legacy key is returned as it is. *)
Theorem set_run_policy_deprecated_fields_keeps (m : gmap string PyVal) :
  exists m',
    set_run_policy_deprecated_fields m = Return m'
    /\ (forall key, is_Some (m !! key) -> is_Some (m' !! key))
    /\ (forall x, m !! "retries" = Some x -> truthy x = true -> m' !! "retries" = Some x)
    /\ (forall x, m !! "retry_delay" = Some x -> truthy x = true ->
          m' !! "retry_delay" = Some x)
    /\ (m !! "max_retries" = None -> m !! "retry_delay_seconds" = None -> m' = m).
Proof.
  destruct (set_run_policy_deprecated_fields_spec m) as (m' & Hrun & Hr & Hd & Ho).
  exists m'. split; [exact Hrun|]. split; [|split; [|split]].
  - intros key Hkey.
    destruct (decide (key = "retries")) as [->|Hk1].
    { rewrite Hr.
      destruct (absent_or_falsy m "retries" && present_nonzero m "max_retries") eqn:Hc;
        [|exact Hkey].
      apply andb_true_iff in Hc as [_ Hl]. unfold present_nonzero in Hl.
      destruct (m !! "max_retries"); [eauto | discriminate]. }
    destruct (decide (key = "retry_delay")) as [->|Hk2]; [|by rewrite Ho].
    rewrite Hd.
    destruct (absent_or_falsy m "retry_delay" && present_nonzero m "retry_delay_seconds")
      eqn:Hc; [|exact Hkey].
    apply andb_true_iff in Hc as [_ Hl]. unfold present_nonzero in Hl.
    destruct (m !! "retry_delay_seconds"); [eauto | discriminate].
  - intros x Hx Htruthy. rewrite Hr. unfold absent_or_falsy. by rewrite Hx, Htruthy.
  - intros x Hx Htruthy. rewrite Hd. unfold absent_or_falsy. by rewrite Hx, Htruthy.
  - intros Hl1 Hl2. apply map_eq. intros key.
    destruct (decide (key = "retries")) as [->|Hk1].
    { rewrite Hr. unfold present_nonzero. by rewrite Hl1, andb_false_r. }
    destruct (decide (key = "retry_delay")) as [->|Hk2]; [|by apply Ho].
    rewrite Hd. unfold present_nonzero. by rewrite Hl2, andb_false_r.
Qed.

Lemma set_run_policy_deprecated_fields_keeps_witness :
  exists m',
    set_run_policy_deprecated_fields (<["retries" := PInt 2]> (<["max_retries" := PInt 5]> ∅))
    = Return m'
    /\ m' !! "retries" = Some (PInt 2).
Proof.
  destruct (set_run_policy_deprecated_fields_keeps
              (<["retries" := PInt 2]> (<["max_retries" := PInt 5]> ∅)))
    as (m' & Hrun & _ & Hkept & _).
  exists m'. split; [exact Hrun|]. apply Hkept; reflexivity.
Defined.

(** X20. The reconcilers commute: removing the old deployment fields
    before or after [set_run_policy_deprecated_fields] and before or after
    [reconcile_paused_deployment] gives the same mapping, and so does
    reconciling [paused] before or after the retry fields. *)
Theorem reconcilers_commute (m : gmap string PyVal) :
  (exists m1 m2,
     set_run_policy_deprecated_fields m = Return m1
     /\ set_run_policy_deprecated_fields (remove_old_deployment_fields m).2 = Return m2
     /\ (remove_old_deployment_fields m1).2 = m2)
  /\ (remove_old_deployment_fields (reconcile_paused_deployment m)).2
     = reconcile_paused_deployment (remove_old_deployment_fields m).2
  /\ (exists m1 m2,
        set_run_policy_deprecated_fields m = Return m1
        /\ set_run_policy_deprecated_fields (reconcile_paused_deployment m) = Return m2
        /\ reconcile_paused_deployment m1 = m2).
Proof.
  split; [|split].
  - destruct (set_run_policy_deprecated_fields_spec m) as (m1 & H1 & Hr1 & Hd1 & Ho1).
    destruct (set_run_policy_deprecated_fields_spec (remove_old_deployment_fields m).2)
      as (m2 & H2 & Hr2 & Hd2 & Ho2).
    exists m1, m2. split; [exact H1|]. split; [exact H2|].
    apply map_eq. intros key. rewrite remove_old_deployment_fields_lookup.
    unfold absent_or_falsy, present_nonzero in *.
    rewrite !remove_old_deployment_fields_lookup in Hr2, Hd2.
    rewrite !bool_decide_eq_false_2 in Hr2, Hd2 by compute_done.
    destruct (decide (key = "retries")) as [->|Hk1].
    { rewrite bool_decide_eq_false_2 by compute_done. by rewrite Hr1, Hr2. }
    destruct (decide (key = "retry_delay")) as [->|Hk2].
    { rewrite bool_decide_eq_false_2 by compute_done. by rewrite Hd1, Hd2. }
    rewrite Ho1, Ho2 by done. by rewrite remove_old_deployment_fields_lookup.
  - assert ((remove_old_deployment_fields m).2 !! "paused" = m !! "paused") as Hsame.
    { rewrite remove_old_deployment_fields_lookup. by rewrite bool_decide_eq_false_2
        by compute_done. }
    apply map_eq. intros key. rewrite remove_old_deployment_fields_lookup.
    destruct (reconcile_paused_deployment_cases m) as [[-> Hp] | [-> (x & Hx & Hne)]];
      destruct (reconcile_paused_deployment_cases (remove_old_deployment_fields m).2)
        as [[-> Hp'] | [-> (x' & Hx' & Hne')]];
      rewrite Hsame in *.
    + destruct (decide (key = "paused")) as [->|Hk].
      * rewrite !lookup_insert_eq. by rewrite bool_decide_eq_false_2 by compute_done.
      * rewrite !lookup_insert_ne by done. by rewrite remove_old_deployment_fields_lookup.
    + exfalso. destruct Hp; congruence.
    + exfalso. destruct Hp'; congruence.
    + by rewrite remove_old_deployment_fields_lookup.
  - destruct (set_run_policy_deprecated_fields_spec m) as (m1 & H1 & Hr1 & Hd1 & Ho1).
    destruct (set_run_policy_deprecated_fields_spec (reconcile_paused_deployment m))
      as (m2 & H2 & Hr2 & Hd2 & Ho2).
    pose proof (reconcile_paused_deployment_other m) as Hpm.
    pose proof (reconcile_paused_deployment_other m1) as Hpm1.
    exists m1, m2. split; [exact H1|]. split; [exact H2|].
    unfold absent_or_falsy, present_nonzero in *.
    rewrite !Hpm in Hr2, Hd2 by discriminate.
    apply map_eq. intros key.
    destruct (decide (key = "retries")) as [->|Hk1].
    { rewrite Hpm1 by discriminate. by rewrite Hr1, Hr2. }
    destruct (decide (key = "retry_delay")) as [->|Hk2].
    { rewrite Hpm1 by discriminate. by rewrite Hd1, Hd2. }
    rewrite Ho2 by done.
    destruct (decide (key = "paused")) as [->|Hk3]; [|by rewrite Hpm, Hpm1, Ho1].
    assert (m1 !! "paused" = m !! "paused") as Hsame by (apply Ho1; discriminate).
    destruct (reconcile_paused_deployment_cases m) as [[-> Hp] | [-> (x & Hx & Hne)]];
      destruct (reconcile_paused_deployment_cases m1)
        as [[-> Hp'] | [-> (x' & Hx' & Hne')]].
    + by rewrite !lookup_insert_eq.
    + exfalso. destruct Hp; congruence.
    + exfalso. destruct Hp'; congruence.
    + exact Hsame.
Qed.

(** *** Metadata *)

Lemma slice_to_append_exact (a b : string) : slice_to (String.length a) (a +:+ b) = a.
Proof.
  unfold slice_to. induction a as [|c a IH]; [by destruct b|].
  rewrite append_cons. simpl. by rewrite IH.
Qed.

Section MetadataInvariants.

Variable str_other : PyVal -> Result string.

Lemma sanitized_length (x : PyVal) :
  len (text_of str_other (sanitized str_other x)) <= 503.
Proof.
  unfold sanitized.
  destruct (Z.ltb_spec 500 (len (text_of str_other x))) as [Hlong|Hshort].
  - change (text_of str_other (PStr ?s)) with s.
    unfold len in *. rewrite length_append, length_slice_to.
    simpl String.length. lia.
  - lia.
Qed.

Lemma sanitized_idempotent (x : PyVal) :
  sanitized str_other (sanitized str_other x) = sanitized str_other x.
Proof.
  unfold sanitized at 2 3.
  destruct (Z.ltb_spec 500 (len (text_of str_other x))) as [Hlong|Hshort].
  - unfold sanitized. change (text_of str_other (PStr ?s)) with s.
    assert (String.length (slice_to 500 (text_of str_other x)) = 500%nat) as Hlen.
    { rewrite length_slice_to. unfold len in Hlong. lia. }
    assert ((500 <? len (slice_to 500 (text_of str_other x) +:+ "...")) = true) as ->.
    { unfold len. rewrite length_append, Hlen. reflexivity. }
    do 2 f_equal. rewrite <- Hlen at 1. apply slice_to_append_exact.
  - unfold sanitized. by assert ((500 <? len (text_of str_other x)) = false) as -> by lia.
Qed.

(** Once a turn of the loop has raised, the loop raises that exception. *)
Lemma metadata_loop_raised (keys : list string) (e : PyExc) :
  foldl (fun state key =>
           let* v := state in truncate_metadata_value str_other 500 v key)
        (Raise e) keys
  = Raise e.
Proof. induction keys as [|k keys IH]; [reflexivity | exact IH]. Qed.

(** The loop raises when [str] raises for a value it meets: the exception
    is that of [str] for one of the values. *)
Lemma metadata_loop_raises (keys : list string) (v : gmap string PyVal) :
  NoDup keys ->
  (forall key, key ∈ keys -> is_Some (v !! key)) ->
  (exists key x, key ∈ keys /\ v !! key = Some x /\ str_defined str_other x = false) ->
  exists key x e,
    key ∈ keys /\ v !! key = Some x /\ py_str str_other x = Raise e
    /\ metadata_loop str_other 500 keys v = Raise e.
Proof.
  unfold metadata_loop. revert v.
  induction keys as [|k keys IH]; intros v Hnodup Hin (key0 & x0 & Hkey0 & Hx0 & Hstr0).
  - by apply elem_of_nil in Hkey0.
  - apply NoDup_cons in Hnodup as [Hk Hnodup].
    destruct (Hin k) as [x Hx]; [left|]. cbn [foldl bind].
    destruct (py_str str_other x) as [s|e] eqn:Hstr.
    + assert (str_defined str_other x = true) as Hdefined
        by (unfold str_defined; by rewrite Hstr).
      rewrite (truncate_metadata_value_spec str_other v k x Hx Hdefined).
      assert (key0 <> k) as Hne by (intros ->; congruence).
      destruct (IH (<[k := sanitized str_other x]> v) Hnodup)
        as (key & y & e & Hkey & Hy & Hraise & Hrun).
      { intros key Hkey. destruct (decide (key = k)) as [->|Hne'].
        - by destruct (Hk Hkey).
        - rewrite lookup_insert_ne by done. apply Hin. by right. }
      { exists key0, x0. split; [|split; [|exact Hstr0]].
        - apply elem_of_cons in Hkey0 as [?|?]; [done | assumption].
        - by rewrite lookup_insert_ne. }
      exists key, y, e. split; [by right|]. split; [|by split].
      rewrite lookup_insert_ne in Hy; [exact Hy|]. intros <-. by destruct (Hk Hkey).
    + rewrite (truncate_metadata_value_raises str_other v k x e Hx Hstr).
      exists k, x, e. split; [by left|]. split; [exact Hx|]. split; [exact Hstr|].
      apply metadata_loop_raised.
Qed.

End MetadataInvariants.

(** X21. For a mapping in which [str] returns a text for every value,
    what [validate_max_metadata_length] returns has the keys of the
    mapping, each of its values has a text of at most 503 characters, and
    run on its own result the function returns that result again.  For a
    mapping with a value for which [str] raises, the function raises: the
    exception is that of [str] for one of the values. *)
Theorem validate_max_metadata_length_invariants
    (str_other : PyVal -> Result string) (m : gmap string PyVal) :
  (map_Forall (fun _ x => str_defined str_other x = true) m ->
   exists m',
     validate_max_metadata_length str_other (Some m) = Return (Some m')
     /\ dom m' = dom m
     /\ (forall key x, m' !! key = Some x ->
           str_defined str_other x = true /\ len (text_of str_other x) <= 503)
     /\ validate_max_metadata_length str_other (Some m') = Return (Some m'))
  /\ (forall key x,
        m !! key = Some x -> str_defined str_other x = false ->
        exists key' x' e,
          m !! key' = Some x' /\ py_str str_other x' = Raise e
          /\ validate_max_metadata_length str_other (Some m) = Raise e).
Proof.
  split.
  - intros Hstr.
    assert (map_Forall (fun _ x => str_defined str_other x = true)
              (sanitized str_other <$> m)) as Hstr'.
    { intros key x. rewrite lookup_fmap. destruct (m !! key) as [y|] eqn:Hy; [|discriminate].
      intros [= <-]. apply str_defined_sanitized. exact (Hstr key y Hy). }
    exists (sanitized str_other <$> m).
    split; [by apply validate_max_metadata_length_fmap|]. split; [|split].
    + apply dom_fmap_L.
    + intros key x Hx. split; [exact (Hstr' key x Hx)|].
      revert Hx. rewrite lookup_fmap. destruct (m !! key) as [y|]; [|discriminate].
      intros [= <-]. apply sanitized_length.
    + rewrite validate_max_metadata_length_fmap by exact Hstr'. do 2 f_equal.
      rewrite <- map_fmap_compose. apply map_fmap_ext. intros key x _.
      apply sanitized_idempotent.
  - intros key x Hx Hstr. unfold validate_max_metadata_length.
    destruct (metadata_loop_raises str_other (map_to_list m).*1 m)
      as (key' & x' & e & _ & Hx' & Hraise & Hrun).
    + apply NoDup_fst_map_to_list.
    + intros k [[k' y] [-> Hky]]%list_elem_of_fmap.
      apply elem_of_map_to_list in Hky. simpl. eauto.
    + exists key, x. split; [|by split].
      apply list_elem_of_fmap. exists (key, x). split; [reflexivity|].
      by apply elem_of_map_to_list.
    + exists key', x', e. split; [exact Hx'|]. split; [exact Hraise|].
      by rewrite Hrun.
Qed.

Lemma validate_max_metadata_length_invariants_witness :
  exists e,
    validate_max_metadata_length (fun _ => Return EmptyString)
      (Some (<["k" := PInt (10 ^ 4300)]> ∅))
    = Raise e.
Proof.
  destruct (validate_max_metadata_length_invariants (fun _ => Return EmptyString)
              (<["k" := PInt (10 ^ 4300)]> ∅)) as (_ & Hraises).
  destruct (Hraises "k" (PInt (10 ^ 4300))) as (key' & x' & e & _ & _ & Hrun).
  - apply lookup_insert_eq.
  - unfold str_defined. cbn [py_str]. by rewrite int_str_over_limit.
  - exists e. exact Hrun.
Defined.
